(** * Pilot webhook: classification of listeners and insertion of the
      external authorization filter

    A shallow embedding of [webhook.go].  The Go code mutates the decoded
    discovery document in place through pointers; here every function
    returns the updated struct.  A pointer is an [option]: [None] is
    [nil], [Some s] is a pointer to the struct [s], and reading a field
    through [nil] panics.  Two pointers of one value are taken to refer to
    two structs: a configuration shared by two filters is outside the
    model, so the theorems on [updateListener] are stated of the filter
    the loop stops at, of the length of the chain and of its names, and
    not of another filter's configuration.  A Go run-time panic (an index out of range, a
    failed type assertion, a nil dereference) is a value of [result], so
    that "the handler does not return" is a statement of the model.  Calls
    to the logger change nothing the handlers return; of a call only the
    dereference in its argument is kept. *)

From Stdlib Require Import String Ascii List Bool Arith ZArith Lia.
From Stdlib.Strings Require Import Byte.
Import ListNotations.
Local Open Scope string_scope.
Local Open Scope list_scope.

(** ** The Go run time: panics, indexing, [strings.Split] *)

Module Go.

(** The run-time panics the webhook can raise. *)
Inductive panic : Type :=
| IndexOutOfRange (index len : nat)
| InterfaceConversion
| NilDereference.

(** A Go computation either returns or panics. *)
Inductive result (A : Type) : Type :=
| Ok (a : A)
| Panic (p : panic).
Arguments Ok {A} a.
Arguments Panic {A} p.

Definition bind {A B : Type} (m : result A) (k : A -> result B) : result B :=
  match m with
  | Ok a => k a
  | Panic p => Panic p
  end.

(** [c[i]] on a slice. *)
Definition index {A : Type} (c : list A) (i : nat) : result A :=
  match nth_error c i with
  | Some a => Ok a
  | None => Panic (IndexOutOfRange i (length c))
  end.

(** [p.Field], [*p]: the struct behind a pointer. *)
Definition deref {A : Type} (p : option A) : result A :=
  match p with
  | Some a => Ok a
  | None => Panic NilDereference
  end.

(** [for _, x := range xs { f(x) }] where [f] updates the struct behind
    [x] in place: the structs after the loop, in order. *)
Fixpoint forRange {A B : Type} (f : A -> result B) (xs : list A) : result (list B) :=
  match xs with
  | [] => Ok []
  | x :: rest =>
      bind (f x) (fun x' =>
      bind (forRange f rest) (fun rest' => Ok (x' :: rest')))
  end.

(** The scan of [strings.Split] for a non-empty separator: [cur] is the
    token being read, [skip] counts the bytes of a separator occurrence
    that are still to be passed over. *)
Fixpoint splitFrom (sep s : string) (skip : nat) (cur : string) : list string :=
  match s with
  | EmptyString => [cur]
  | String a s' =>
      match skip with
      | S k => splitFrom sep s' k cur
      | O =>
          if prefix sep s
          then cur :: splitFrom sep s' (String.length sep - 1) EmptyString
          else splitFrom sep s' 0 (cur ++ String a EmptyString)
      end
  end.

(** [strings.Split(s, sep)] at a non-empty separator, which is all the
    webhook passes (the constants "~" and "_").  With an empty separator
    Go cuts after every UTF-8 sequence; that case is outside the model:
    the definition gives no token there and nothing below is stated for
    it. *)
Definition Split (s sep : string) : list string :=
  match sep with
  | EmptyString => []
  | _ => splitFrom sep s 0 EmptyString
  end.

End Go.

Export Go.

Declare Scope go_scope.
Delimit Scope go_scope with go.
Notation "x <- m ;; k" := (Go.bind m (fun x => k))
  (at level 61, m at next level, right associativity) : go_scope.
Local Open Scope go_scope.

(** ** Data model *)

(** [const] block of [webhook.go]. *)
Definition serviceNodeSeparator : string := "~".
Definition listenerNameSeparator : string := "_".
Definition AuthZFilterName : string := "envoy.ext_authz".
Definition AuthZClusterName : string := "calico.dikastes".
Definition DikastesSocketDir : string := "/var/run/dikastes".

(** [type Direction int], numbered by [iota]. *)
Inductive Direction : Type := INBOUND | OUTBOUND | VIRTUAL.

(** [type Protocol int], numbered by [iota]: [HTTP] is 0, [TCP] is 1. *)
Inductive Protocol : Type := HTTP | TCP.

(** [var proto Protocol] holds the zero value of the type, which is the
    constant numbered 0. *)
Definition zeroProtocol : Protocol := HTTP.

(** [type GrpcClusterConfig struct]. *)
Module GrpcClusterConfig.
Record t : Type := mk { ClusterName : string }.
End GrpcClusterConfig.

(** [type AuthzFilterConfig struct]; [GrpcCluster] is a pointer, [None] is
    [nil].  Both fields carry the tag [omitempty]; the encoding of a
    configuration is left to the codec and is not modelled. *)
Module AuthzFilterConfig.
Record t : Type := mk {
  StatPrefix : string;
  GrpcCluster : option GrpcClusterConfig.t
}.
End AuthzFilterConfig.

(** Modelled from the spec: the payload of an HTTP sub-filter, which the
    imported package [v1] declares as [interface{}].  The webhook stores a
    pointer to its own [AuthzFilterConfig] there; every other payload is
    opaque to it. *)
Inductive HTTPFilterPayload : Type :=
| AuthzPayload (cfg : option AuthzFilterConfig.t)
| OpaquePayload (raw : string).

(** Modelled from the spec: [v1.HTTPFilter], a sub-filter of the HTTP
    connection manager, declared in the imported package [v1]; [Config] is
    an interface value, [None] is [nil]. *)
Module HTTPFilter.
Record t : Type := mk {
  Type_ : string;
  Name : string;
  Config : option HTTPFilterPayload
}.
End HTTPFilter.

(** Modelled from the spec: [v1.HTTPFilterConfig], the configuration of
    the HTTP connection manager, declared in the imported package [v1]:
    an ordered sequence of sub-filters next to settings the webhook never
    reads. *)
Module HTTPFilterConfig.
Record t : Type := mk {
  CodecType : string;
  StatPrefix : string;
  Filters : list HTTPFilter.t
}.
End HTTPFilterConfig.

(** Modelled from the spec: the dynamic types behind the interface
    [v1.NetworkFilterConfig] (the capability-tagged union of the spec's
    design notes).  [*v1.HTTPFilterConfig] implements it in [v1],
    [*AuthzFilterConfig] implements it in [webhook.go]
    ([IsNetworkFilterConfig]); the other implementations of [v1] are opaque
    to the webhook.  The interface value holds a pointer, which may be
    [nil] under its type. *)
Inductive NetworkFilterConfig : Type :=
| HTTPFilterConfigPtr (cfg : option HTTPFilterConfig.t)
| AuthzFilterConfigPtr (cfg : option AuthzFilterConfig.t)
| OtherFilterConfigPtr (raw : string).

(** Modelled from the spec: [v1.NetworkFilter], an entry of a listener's
    filter chain, declared in the imported package [v1]; [Config] is an
    interface value, [None] is [nil]. *)
Module NetworkFilter.
Record t : Type := mk {
  Type_ : string;
  Name : string;
  Config : option NetworkFilterConfig
}.
End NetworkFilter.

(** Modelled from the spec: [v1.Listener], declared in the imported
    package [v1]: a name, the ordered filter chain, a slice of pointers,
    and fields the webhook never reads. *)
Module Listener.
Record t : Type := mk {
  Address : string;
  Name : string;
  Filters : list (option NetworkFilter.t);
  BindToPort : bool
}.
End Listener.

(** [type ldsResponse struct]: [v1.Listeners] is a slice of pointers. *)
Module ldsResponse.
Record t : Type := mk { Listeners : list (option Listener.t) }.
End ldsResponse.

(** Modelled from the spec: [v1.Host], [v1.DefaultCBPriority],
    [v1.CircuitBreaker] and [v1.Cluster], declared in the imported package
    [v1]: a cluster entry has a name, a connect timeout, a type, a
    load-balancing policy, circuit-breaker thresholds, feature flags and
    backend host URIs.  [CircuitBreaker] is a pointer, [None] is [nil]. *)
Module Host.
Record t : Type := mk { URL : string }.
End Host.

Module DefaultCBPriority.
Record t : Type := mk {
  MaxConnections : Z;
  MaxPendingRequests : Z;
  MaxRequests : Z;
  MaxRetries : Z
}.
End DefaultCBPriority.

Module CircuitBreaker.
Record t : Type := mk { Default : DefaultCBPriority.t }.
End CircuitBreaker.

Module Cluster.
Record t : Type := mk {
  Name : string;
  ServiceName : string;
  ConnectTimeoutMs : Z;
  Type_ : string;
  LbType : string;
  Hosts : list Host.t;
  Features : string;
  CircuitBreaker : option CircuitBreaker.t
}.
End Cluster.

(** [type cdsResponse struct]: [v1.Clusters] is a slice of pointers. *)
Module cdsResponse.
Record t : Type := mk { Clusters : list (option Cluster.t) }.
End cdsResponse.

(** [type options struct] and the package variable [configOptions]: the
    handlers take the options as an argument. *)
Module options.
Record t : Type := mk { SetCluster : bool }.
End options.

(** ** Requests, responses and the JSON codec *)

(** [req.Request.Body], an [io.Reader]: the bytes it delivers, and whether
    the stream then ends in a read error instead of [io.EOF]. *)
Module Reader.
Record t : Type := mk { data : list byte; err : bool }.
End Reader.

(** [ioutil.ReadAll]: the bytes read and the error. *)
Definition ReadAll (r : Reader.t) : list byte * bool :=
  (Reader.data r, Reader.err r).

(** [restful.Request]: the path parameters and the body. *)
Module Request.
Record t : Type := mk {
  pathParameters : list (string * string);
  Body : Reader.t
}.
End Request.

(** [req.PathParameter(name)]: a map lookup, the empty string when the
    parameter is absent. *)
Fixpoint PathParameter (params : list (string * string)) (name : string) : string :=
  match params with
  | [] => ""
  | (k, v) :: rest => if k =? name then v else PathParameter rest name
  end.

(** [restful.Response] over its [http.ResponseWriter]: the status line is
    fixed by the first [WriteHeader] or [Write]; a handler that returns
    without writing answers with the initial status. *)
Module Response.
Record t : Type := mk {
  statusCode : Z;
  wroteHeader : bool;
  body : list byte
}.
End Response.

Definition StatusOK : Z := 200.
Definition StatusBadRequest : Z := 400.
Definition StatusInternalServerError : Z := 500.

(** [restful.NewResponse] on a fresh writer. *)
Definition NewResponse : Response.t := Response.mk StatusOK false [].

Definition WriteHeader (resp : Response.t) (status : Z) : Response.t :=
  if Response.wroteHeader resp then resp
  else Response.mk status true (Response.body resp).

Definition Write (resp : Response.t) (bytes : list byte) : Response.t :=
  Response.mk (Response.statusCode resp) true (Response.body resp ++ bytes).

Definition WriteErrorString (resp : Response.t) (status : Z) (reason : string)
  : Response.t :=
  Write (WriteHeader resp status) (list_byte_of_string reason).

(** [io.Copy(resp, body)] with its result dropped: what was read before
    the end of the stream or the read error is written; nothing is written
    when nothing was read. *)
Definition ioCopy (resp : Response.t) (src : Reader.t) : Response.t :=
  match Reader.data src with
  | [] => resp
  | bytes => Write resp bytes
  end.

(** [json.Marshal] and [json.Unmarshal] at a document type; [None] is a
    non-nil error. *)
Class JSON (A : Type) : Type := {
  Marshal : A -> option (list byte);
  Unmarshal : list byte -> option A
}.

(** ** Test data

    The listeners of [webhook_test.go] and a few more, with the values the
    constants of [v1] have in Istio, and a few small codecs. *)

Module Fixture.

Definition HTTPConnectionManager : string := "http_connection_manager".
Definition TCPProxyFilter : string := "tcp_proxy".
Definition CORSFilter : string := "cors".
Definition ClusterTypeStatic : string := "static".
Definition LbTypeRoundRobin : string := "round_robin".
Definition ClusterFeatureHTTP2 : string := "http2".

Definition NODE_IP : string := "3.4.5.6".

(** [serviceNode] of the tests. *)
Definition serviceNode (nodeType ip : string) : string :=
  nodeType ++ "~" ++ ip ++ "~other~items".

Definition corsOnly : HTTPFilterConfig.t :=
  HTTPFilterConfig.mk "" "" [HTTPFilter.mk "" CORSFilter None].

(** The connection manager filter of [TestListenersMainline]. *)
Definition managerWithCors : NetworkFilter.t :=
  NetworkFilter.mk "" HTTPConnectionManager (Some (HTTPFilterConfigPtr (Some corsOnly))).

(** The two listeners of [TestListenersMainline]. *)
Definition outboundHTTP : Listener.t :=
  Listener.mk "" "http_0.0.0.0_80" [] false.

Definition inboundHTTP : Listener.t :=
  Listener.mk "" "http_3.4.5.6_43" [Some managerWithCors] false.

(** The listeners of [TestUpdateListenersSkipped] and
    [TestUpdateListenersTCP]. *)
Definition outbound443 : Listener.t := Listener.mk "" "http_10.65.8.9_443" [] false.
Definition virtual : Listener.t := Listener.mk "" "virtual" [] false.
Definition inboundTCP : Listener.t :=
  Listener.mk "" "tcp_1.2.3.4_76" [Some (NetworkFilter.mk "" TCPProxyFilter None)] false.

(** An inbound HTTP listener whose connection manager filter carries no
    configuration. *)
Definition inboundHTTPNilConfig : Listener.t :=
  Listener.mk "" "http_3.4.5.6_43"
    [Some (NetworkFilter.mk "" HTTPConnectionManager None)] false.

(** An inbound HTTP listener whose filter of that name carries a
    configuration of another dynamic type. *)
Definition inboundHTTPOtherConfig : Listener.t :=
  Listener.mk "" "http_3.4.5.6_43"
    [Some (NetworkFilter.mk "" HTTPConnectionManager
       (Some (AuthzFilterConfigPtr (Some (AuthzFilterConfig.mk "" None)))))] false.

(** An inbound HTTP listener whose chain holds a [nil] pointer before the
    connection manager, as a decoded [null] leaves it. *)
Definition inboundHTTPNilFilter : Listener.t :=
  Listener.mk "" "http_3.4.5.6_43" [None; Some managerWithCors] false.

(** An inbound HTTP listener whose connection manager configuration is a
    [nil] pointer under its type. *)
Definition inboundHTTPTypedNil : Listener.t :=
  Listener.mk "" "http_3.4.5.6_43"
    [Some (NetworkFilter.mk "" HTTPConnectionManager (Some (HTTPFilterConfigPtr None)))]
    false.

(** An inbound listener named after a protocol that is neither HTTP nor
    TCP, with a connection manager in its chain. *)
Definition inboundMongo : Listener.t :=
  Listener.mk "" "mongo_3.4.5.6_27017" [Some managerWithCors] false.

(** A listener whose name has no separator. *)
Definition unseparated : Listener.t := Listener.mk "" "listener" [] false.

(** The cluster document of [TestClustersMainline]. *)
Definition oneCluster : cdsResponse.t :=
  cdsResponse.mk [Some (Cluster.mk "out.something.com|http" "" 0 "" "" [] "" None)].

(** A codec on which every call fails: no body is a valid document. *)
Definition noJSON (A : Type) : JSON A :=
  {| Marshal := fun _ => None; Unmarshal := fun _ => None |}.

(** A codec that decodes every body to [doc] and encodes a document with
    [enc]. *)
Definition fixedJSON {A : Type} (doc : A) (enc : A -> list byte) : JSON A :=
  {| Marshal := fun a => Some (enc a); Unmarshal := fun _ => Some doc |}.

(** One byte per entry of the document. *)
Definition tally {A : Type} (entries : list A) : list byte :=
  map (fun _ => x2a) entries.

Definition sidecarRequest (body : Reader.t) : Request.t :=
  Request.mk [("serviceNode", serviceNode "sidecar" NODE_IP)] body.

Definition ingressRequest (body : Reader.t) : Request.t :=
  Request.mk [("serviceNode", serviceNode "ingress" NODE_IP)] body.

(** A request whose self-descriptor is the role alone. *)
Definition roleOnlyRequest (body : Reader.t) : Request.t :=
  Request.mk [("serviceNode", "ingress")] body.

Definition notJSON : list byte := list_byte_of_string "not JSON".

(** A body whose read fails after three bytes. *)
Definition failing : Reader.t := Reader.mk (list_byte_of_string "not") true.

(** The document of [TestListenersMainline]; a listener document with an
    unseparated name between two well-formed entries; and codecs that
    decode every body to a given document. *)
Definition mainline : ldsResponse.t :=
  ldsResponse.mk [Some outboundHTTP; Some inboundHTTP].

Definition withUnseparated : ldsResponse.t :=
  ldsResponse.mk [Some outboundHTTP; Some unseparated; Some inboundHTTP].

Definition ldsCodec (doc : ldsResponse.t) : JSON ldsResponse.t :=
  fixedJSON doc (fun d => tally (ldsResponse.Listeners d)).

Definition cdsCodec (doc : cdsResponse.t) : JSON cdsResponse.t :=
  fixedJSON doc (fun d => tally (cdsResponse.Clusters d)).

(** A codec for the documents whose clusters are all [c]: one byte per
    cluster. *)
Definition unaryCodec (c : Cluster.t) : JSON cdsResponse.t :=
  {| Marshal := fun d => Some (tally (cdsResponse.Clusters d));
     Unmarshal := fun bytes => Some (cdsResponse.mk (map (fun _ => Some c) bytes)) |}.

(** A request without path parameters, as [newEDSRequest] builds it. *)
Definition bareRequest (body : Reader.t) : Request.t := Request.mk [] body.

(** A chain in which the connection manager comes second and a second
    filter of its name follows. *)
Definition inboundHTTPLongChain : Listener.t :=
  Listener.mk "" "http_3.4.5.6_43"
    [Some (NetworkFilter.mk "read" TCPProxyFilter None);
     Some (NetworkFilter.mk "read" HTTPConnectionManager
             (Some (HTTPFilterConfigPtr (Some corsOnly))));
     Some (NetworkFilter.mk "read" HTTPConnectionManager None)]
    true.

End Fixture.

(** ** The naming classifier and the filter insertion engine *)

Section Webhook.

(** The string constants [v1.HTTPConnectionManager], [v1.ClusterTypeStatic],
    [v1.LbTypeRoundRobin] and [v1.ClusterFeatureHTTP2] of the imported
    package [v1]: the registered names of the HTTP connection manager
    filter, of the static cluster type, of round-robin load balancing and
    of the HTTP/2 cluster feature. *)
Variable HTTPConnectionManager : string.
Variables ClusterTypeStatic LbTypeRoundRobin ClusterFeatureHTTP2 : string.

(** [encoding/json] at the two document types. *)
Context {ldsJSON : JSON ldsResponse.t} {cdsJSON : JSON cdsResponse.t}.

(** [classifyListener]: direction and protocol from the listener's name.
    [listener] is a pointer, read at [listener.Name]; [c[0]] and [c[1]]
    are unchecked slice accesses. *)
Definition classifyListener (listener : option Listener.t) (ip : string)
  : result (Direction * Protocol) :=
  let proto := zeroProtocol in
  l <- deref listener ;;
  if Listener.Name l =? "virtual" then Ok (VIRTUAL, proto)
  else
    let c := Split (Listener.Name l) listenerNameSeparator in
    c0 <- index c 0 ;;
    let proto :=
      if c0 =? "http" then HTTP
      else if c0 =? "tcp" then TCP
      else proto in
    c1 <- index c 1 ;;
    if c1 =? ip then Ok (INBOUND, proto) else Ok (OUTBOUND, proto).

(** The local [authzHttp] of [updateHTTPListener]. *)
Definition authzHttp : HTTPFilter.t :=
  HTTPFilter.mk "decoder" AuthZFilterName
    (Some (AuthzPayload
       (Some (AuthzFilterConfig.mk ""
          (Some (GrpcClusterConfig.mk AuthZClusterName)))))).

(** The local [authzTCP] of [updateTCPListener]. *)
Definition authzTCP : NetworkFilter.t :=
  NetworkFilter.mk "read" AuthZFilterName
    (Some (AuthzFilterConfigPtr
       (Some (AuthzFilterConfig.mk AuthZFilterName
          (Some (GrpcClusterConfig.mk AuthZClusterName)))))).

(** The loop of [updateHTTPListener]: every pointer of the chain is read
    at [filter.Name] until one has the name [v1.HTTPConnectionManager];
    the result is that filter's [Config], [nil] when it carries none or
    when no filter has the name. *)
Fixpoint httpManagerConfigOf (filters : list (option NetworkFilter.t))
  : result (option NetworkFilterConfig) :=
  match filters with
  | [] => Ok None
  | p :: rest =>
      filter <- deref p ;;
      if NetworkFilter.Name filter =? HTTPConnectionManager
      then Ok (NetworkFilter.Config filter)
      else httpManagerConfigOf rest
  end.

(** [cfg] in [updateHTTPListener] points into the filter the loop stopped
    at, so the assignment to [cfg.Filters] is seen through the listener:
    the configuration of the first filter named [v1.HTTPConnectionManager]
    is replaced. *)
Fixpoint storeHTTPManagerConfig (filters : list (option NetworkFilter.t))
  (cfg : HTTPFilterConfig.t) : list (option NetworkFilter.t) :=
  match filters with
  | [] => []
  | None :: rest => None :: storeHTTPManagerConfig rest cfg
  | Some filter :: rest =>
      if NetworkFilter.Name filter =? HTTPConnectionManager
      then Some (NetworkFilter.mk (NetworkFilter.Type_ filter)
                   (NetworkFilter.Name filter)
                   (Some (HTTPFilterConfigPtr (Some cfg))))
           :: rest
      else Some filter :: storeHTTPManagerConfig rest cfg
  end.

(** [updateHTTPListener].  [listener.Name] is read for the log line first.
    The type assertion of [httpManagerConfig] to [*v1.HTTPFilterConfig]
    panics on any other dynamic type, and [cfg.Filters] panics when the
    pointer under that type is [nil]; a [nil] configuration is only
    logged. *)
Definition updateHTTPListener (listener : option Listener.t) : result Listener.t :=
  l <- deref listener ;;
  httpManagerConfig <- httpManagerConfigOf (Listener.Filters l) ;;
  match httpManagerConfig with
  | Some (HTTPFilterConfigPtr p) =>
      cfg <- deref p ;;
      let cfg' :=
        HTTPFilterConfig.mk (HTTPFilterConfig.CodecType cfg)
          (HTTPFilterConfig.StatPrefix cfg)
          ([authzHttp] ++ HTTPFilterConfig.Filters cfg) in
      Ok (Listener.mk (Listener.Address l) (Listener.Name l)
            (storeHTTPManagerConfig (Listener.Filters l) cfg')
            (Listener.BindToPort l))
  | Some _ => Panic InterfaceConversion
  | None => Ok l
  end.

(** [updateTCPListener].  [listener.Name] is read for the log line
    first. *)
Definition updateTCPListener (listener : option Listener.t) : result Listener.t :=
  l <- deref listener ;;
  Ok (Listener.mk (Listener.Address l) (Listener.Name l)
        ([Some authzTCP] ++ Listener.Filters l)
        (Listener.BindToPort l)).

(** [updateListener]: the struct behind [listener] after the call.  The
    pointer was read by [classifyListener] before anything else. *)
Definition updateListener (listener : option Listener.t) (ip : string)
  : result Listener.t :=
  dp <- classifyListener listener ip ;;
  let (direction, proto) := dp : Direction * Protocol in
  l <- deref listener ;;
  match direction with
  | OUTBOUND => Ok l
  | VIRTUAL => Ok l
  | INBOUND =>
      match proto with
      | HTTP => updateHTTPListener listener
      | TCP => updateTCPListener listener
      end
  end.

(** ** The response mediator: the handlers *)

(** [listeners]: the LDS hook.  [c[1]] is read before the role is looked
    at.  The loop updates the struct behind every pointer of the decoded
    document; the document encoded afterwards holds the same pointers. *)
Definition listeners (req : Request.t) (resp : Response.t) : result Response.t :=
  let serviceNode := PathParameter (Request.pathParameters req) "serviceNode" in
  let c := Split serviceNode serviceNodeSeparator in
  nodeType <- index c 0 ;;
  ip <- index c 1 ;;
  if negb (nodeType =? "sidecar") then Ok (ioCopy resp (Request.Body req))
  else
    let (body, err) := ReadAll (Request.Body req) in
    if err
    then Ok (WriteErrorString resp StatusInternalServerError "failed to read request")
    else
      match Unmarshal body with
      | None => Ok (WriteErrorString resp StatusBadRequest "could not parse request JSON")
      | Some lds =>
          ls <- forRange (fun l => updateListener l ip)
                  (ldsResponse.Listeners lds) ;;
          match Marshal (ldsResponse.mk (map Some ls)) with
          | None => Ok (WriteErrorString resp StatusInternalServerError "internal error")
          | Some out => Ok (Write resp out)
          end
      end.

(** The cluster literal appended by [clusters]; the fields the literal
    leaves out hold their zero values. *)
Definition dikastesCluster : Cluster.t :=
  Cluster.mk AuthZClusterName "" 5000 ClusterTypeStatic LbTypeRoundRobin
    [Host.mk ("unix://" ++ DikastesSocketDir ++ "/dikastes.sock")]
    ClusterFeatureHTTP2
    (Some (CircuitBreaker.mk (DefaultCBPriority.mk 0 10000 10000 0))).

(** [clusters]: the CDS hook.  Both early [return]s after [log.Error]
    leave the response unwritten.  The pointers of the decoded document
    are not read. *)
Definition clusters (configOptions : options.t) (req : Request.t)
  (resp : Response.t) : Response.t :=
  let (body, err) := ReadAll (Request.Body req) in
  if err then resp
  else
    match Unmarshal body with
    | None => WriteErrorString resp StatusBadRequest "could not parse request JSON"
    | Some cds =>
        let cds :=
          if options.SetCluster configOptions
          then cdsResponse.mk (cdsResponse.Clusters cds ++ [Some dikastesCluster])
          else cds in
        match Marshal cds with
        | None => resp
        | Some out => Write resp out
        end
    end.

(** [routes] and [endpoints]: pass-through. *)
Definition routes (req : Request.t) (resp : Response.t) : Response.t :=
  ioCopy resp (Request.Body req).

Definition endpoints (req : Request.t) (resp : Response.t) : Response.t :=
  ioCopy resp (Request.Body req).

(** ** Vocabulary of the properties *)

(** The entry's HTTP sub-filter sequence: the sub-filters of the
    connection manager configuration that [updateHTTPListener] finds, empty
    when it finds none. *)
Definition httpSubFilters (listener : Listener.t) : list HTTPFilter.t :=
  match httpManagerConfigOf (Listener.Filters listener) with
  | Ok (Some (HTTPFilterConfigPtr (Some cfg))) => HTTPFilterConfig.Filters cfg
  | _ => []
  end.

(** The tokens of a listener's name. *)
Definition nameTokens (listener : Listener.t) : list string :=
  Split (Listener.Name listener) listenerNameSeparator.

(** The authorization configuration an HTTP sub-filter, or a network
    filter, carries. *)
Definition httpAuthzConfig (f : HTTPFilter.t) : option AuthzFilterConfig.t :=
  match HTTPFilter.Config f with
  | Some (AuthzPayload (Some cfg)) => Some cfg
  | _ => None
  end.

Definition networkAuthzConfig (f : NetworkFilter.t) : option AuthzFilterConfig.t :=
  match NetworkFilter.Config f with
  | Some (AuthzFilterConfigPtr (Some cfg)) => Some cfg
  | _ => None
  end.

(** The backing cluster an authorization configuration refers to. *)
Definition clusterReference (cfg : AuthzFilterConfig.t) : option string :=
  option_map GrpcClusterConfig.ClusterName (AuthzFilterConfig.GrpcCluster cfg).

(** An authorization filter, in the words of the properties: a filter
    registered under envoy.ext_authz whose configuration refers to the
    backing cluster calico.dikastes. *)
Definition isHTTPAuthz (f : HTTPFilter.t) : Prop :=
  HTTPFilter.Name f = "envoy.ext_authz" /\
  exists a, httpAuthzConfig f = Some a /\
            clusterReference a = Some "calico.dikastes".


(** A pointer of the chain that the loop reads and passes: it is not
    [nil] and its filter has another name than the connection
    manager's. *)
Definition passed (p : option NetworkFilter.t) : Prop :=
  exists g, p = Some g /\ NetworkFilter.Name g <> HTTPConnectionManager.

(** The chain [filters] has [f] as its first filter named after the
    connection manager, at the end of [pre], with no [nil] pointer before
    it. *)
Definition firstManager (filters pre : list (option NetworkFilter.t))
  (f : NetworkFilter.t) (post : list (option NetworkFilter.t)) : Prop :=
  filters = pre ++ Some f :: post /\
  Forall passed pre /\
  NetworkFilter.Name f = HTTPConnectionManager.

(** The cases in which the search and the update of the HTTP path come to
    an end without a panic: the whole chain is passed, or the first
    connection manager filter carries no configuration or a non-nil HTTP
    filter configuration. *)
Definition managerUsable (filters : list (option NetworkFilter.t)) : Prop :=
  Forall passed filters \/
  exists pre f post,
    firstManager filters pre f post /\
    (NetworkFilter.Config f = None \/
     exists cfg, NetworkFilter.Config f = Some (HTTPFilterConfigPtr (Some cfg))).

(** The names along a chain, [None] at a [nil] pointer. *)
Definition filterNames (filters : list (option NetworkFilter.t))
  : list (option string) :=
  map (option_map NetworkFilter.Name) filters.

(** What [resp.Write(out)] after [json.Marshal] leaves in [clusters]. *)
Definition encoded (resp : Response.t) (cds : cdsResponse.t) : Response.t :=
  match Marshal cds with
  | Some out => Write resp out
  | None => resp
  end.

(** The self-descriptor of a request. *)
Definition serviceNodeOf (req : Request.t) : string :=
  PathParameter (Request.pathParameters req) "serviceNode".

(** The protocol the classifier derives from the first token. *)
Definition protocolOf (token : string) : Protocol :=
  if token =? "http" then HTTP else if token =? "tcp" then TCP else zeroProtocol.

(** Whether the byte [c] occurs in [s]. *)
Fixpoint containsByte (c : ascii) (s : string) : bool :=
  match s with
  | EmptyString => false
  | String a s' => if Ascii.eqb a c then true else containsByte c s'
  end.

(** Istio's naming convention for listeners, as the tests spell it:
    protocol, address and port joined by the separator. *)
Definition listenerName (proto ip port : string) : string :=
  proto ++ listenerNameSeparator ++ ip ++ listenerNameSeparator ++ port.

(** The document [clusters] encodes. *)
Definition augmented (configOptions : options.t) (cds : cdsResponse.t)
  : cdsResponse.t :=
  if options.SetCluster configOptions
  then cdsResponse.mk (cdsResponse.Clusters cds ++ [Some dikastesCluster])
  else cds.

(** The reasons the handlers give with an error status. *)
Definition errorReasons : list (list byte) :=
  map list_byte_of_string
    ["failed to read request"; "could not parse request JSON"; "internal error"].

(** ** Facts about the run time *)

Lemma splitFrom_nonempty sep s skip cur : splitFrom sep s skip cur <> [].
Proof.
  revert skip cur.
  induction s as [|a s IH]; intros skip cur; cbn [splitFrom].
  - discriminate.
  - destruct skip as [|k].
    + destruct (prefix sep (String a s)); [discriminate | apply IH].
    + apply IH.
Qed.

(** [strings.Split] with a non-empty separator returns at least one
    token. *)
Lemma Split_nonempty s sep : sep <> "" -> Split s sep <> [].
Proof.
  intros Hsep. unfold Split.
  destruct sep as [|a sep']; [contradiction | apply splitFrom_nonempty].
Qed.

Lemma index_0_Split s sep : sep <> "" -> exists t, index (Split s sep) 0 = Ok t.
Proof.
  intros Hsep. pose proof (Split_nonempty s sep Hsep) as Hne.
  destruct (Split s sep) as [|t rest]; [contradiction | now exists t].
Qed.

Lemma index_nth_error {A : Type} (c : list A) i a :
  nth_error c i = Some a -> index c i = Ok a.
Proof. intros H. unfold index. now rewrite H. Qed.

Lemma forRange_panics {A B : Type} (f : A -> result B) xs x p :
  In x xs -> f x = Panic p -> exists q, forRange f xs = Panic q.
Proof.
  induction xs as [|y xs IH]; intros Hin Hp; [contradiction|].
  simpl. destruct Hin as [-> | Hin].
  - rewrite Hp. now exists p.
  - destruct (f y) as [y'|q]; simpl; [|now exists q].
    destruct (IH Hin Hp) as [q ->]. now exists q.
Qed.

(** ** The naming classifier *)

Lemma listenerNameSeparator_nonempty : listenerNameSeparator <> "".
Proof. discriminate. Qed.

Lemma serviceNodeSeparator_nonempty : serviceNodeSeparator <> "".
Proof. discriminate. Qed.

(** A name with a second token is not the sentinel. *)
Lemma second_token_not_virtual l a :
  nth_error (nameTokens l) 1 = Some a -> (Listener.Name l =? "virtual") = false.
Proof.
  intros H. destruct (String.eqb_spec (Listener.Name l) "virtual") as [E|]; [|reflexivity].
  unfold nameTokens in H. rewrite E in H. discriminate H.
Qed.

Lemma classifyListener_nil ip : classifyListener None ip = Panic NilDereference.
Proof. reflexivity. Qed.

Lemma classifyListener_unfold l ip :
  classifyListener (Some l) ip =
    if Listener.Name l =? "virtual" then Ok (VIRTUAL, zeroProtocol)
    else
      c0 <- index (nameTokens l) 0 ;;
      c1 <- index (nameTokens l) 1 ;;
      Ok (if c1 =? ip then INBOUND else OUTBOUND, protocolOf c0).
Proof.
  unfold classifyListener, nameTokens, protocolOf. cbn [deref bind].
  destruct (Listener.Name l =? "virtual"); [reflexivity|].
  destruct (index (Split (Listener.Name l) listenerNameSeparator) 0) as [c0|];
    [|reflexivity].
  cbn [bind].
  destruct (index (Split (Listener.Name l) listenerNameSeparator) 1) as [c1|];
    [|reflexivity].
  cbn [bind]. now destruct (c1 =? ip).
Qed.

Lemma classifyListener_tokens l ip t a :
  nth_error (nameTokens l) 0 = Some t ->
  nth_error (nameTokens l) 1 = Some a ->
  classifyListener (Some l) ip =
    Ok (if a =? ip then INBOUND else OUTBOUND, protocolOf t).
Proof.
  intros H0 H1. rewrite classifyListener_unfold.
  rewrite (second_token_not_virtual l a H1).
  now rewrite (index_nth_error _ _ _ H0), (index_nth_error _ _ _ H1).
Qed.

(** Without a second token the access [c[1]] is out of range. *)
Lemma classifyListener_no_second_token l ip :
  Listener.Name l <> "virtual" ->
  nth_error (nameTokens l) 1 = None ->
  classifyListener (Some l) ip = Panic (IndexOutOfRange 1 (length (nameTokens l))).
Proof.
  intros NE Hnone. rewrite classifyListener_unfold.
  destruct (String.eqb_spec (Listener.Name l) "virtual") as [E|_]; [contradiction|].
  destruct (index_0_Split (Listener.Name l) _ listenerNameSeparator_nonempty)
    as [t Ht].
  fold (nameTokens l) in Ht. rewrite Ht. cbn [bind].
  unfold index. now rewrite Hnone.
Qed.

Lemma classifyListener_virtual l ip :
  Listener.Name l = "virtual" ->
  classifyListener (Some l) ip = Ok (VIRTUAL, zeroProtocol).
Proof. intros E. rewrite classifyListener_unfold. now rewrite E. Qed.

Lemma first_token_exists l : exists t, nth_error (nameTokens l) 0 = Some t.
Proof.
  unfold nameTokens.
  pose proof (Split_nonempty (Listener.Name l) _ listenerNameSeparator_nonempty) as Hne.
  destruct (Split _ _) as [|t rest]; [contradiction | now exists t].
Qed.

(** Whatever the classifier returns, the direction follows the name. *)
Lemma classifyListener_direction l ip d p :
  classifyListener (Some l) ip = Ok (d, p) ->
  (d = VIRTUAL <-> Listener.Name l = "virtual") /\
  (d = INBOUND <-> nth_error (nameTokens l) 1 = Some ip) /\
  (d = OUTBOUND <-> exists a, nth_error (nameTokens l) 1 = Some a /\ a <> ip).
Proof.
  intros H.
  destruct (String.eqb_spec (Listener.Name l) "virtual") as [E|NE].
  - rewrite (classifyListener_virtual l ip E) in H. injection H as <- <-.
    assert (Hnone : nth_error (nameTokens l) 1 = None)
      by (unfold nameTokens; now rewrite E).
    repeat split; try easy; rewrite Hnone.
    + discriminate.
    + now intros [a [Ha _]].
  - destruct (first_token_exists l) as [t Ht].
    destruct (nth_error (nameTokens l) 1) as [a|] eqn:Ha.
    + rewrite (classifyListener_tokens l ip t a Ht Ha) in H.
      destruct (String.eqb_spec a ip) as [Eip|Nip]; injection H as <- <-.
      * subst a. repeat split; try easy.
        now intros [a [[= <-] Hne]].
      * repeat split; try easy.
        -- now intros [= ->].
        -- intros _. now exists a.
    + rewrite (classifyListener_no_second_token l ip NE Ha) in H.
      discriminate H.
Qed.

(** ** The filter insertion engine *)

Lemma updateListener_classified l ip d p :
  classifyListener (Some l) ip = Ok (d, p) ->
  updateListener (Some l) ip =
    match d with
    | INBOUND =>
        match p with
        | HTTP => updateHTTPListener (Some l)
        | TCP => updateTCPListener (Some l)
        end
    | _ => Ok l
    end.
Proof. intros H. unfold updateListener. rewrite H. now destruct d. Qed.

Lemma updateListener_panics listener ip q :
  classifyListener listener ip = Panic q -> updateListener listener ip = Panic q.
Proof. intros H. unfold updateListener. now rewrite H. Qed.

Lemma passed_cons_inv p rest :
  Forall passed (p :: rest) ->
  exists g, p = Some g /\
            (NetworkFilter.Name g =? HTTPConnectionManager) = false /\
            Forall passed rest.
Proof.
  intros H. inversion H as [|p' rest' (g & -> & Hg) Hrest]; subst.
  exists g. repeat split; [|exact Hrest].
  now destruct (String.eqb_spec (NetworkFilter.Name g) HTTPConnectionManager).
Qed.

(** The search over a chain it passes from end to end finds nothing. *)
Lemma httpManagerConfigOf_passed filters :
  Forall passed filters -> httpManagerConfigOf filters = Ok None.
Proof.
  induction filters as [|p rest IH]; intros H; [reflexivity|].
  destruct (passed_cons_inv p rest H) as (g & -> & Hg & Hrest).
  simpl. rewrite Hg. now apply IH.
Qed.

(** The search stops at the first filter of the name. *)
Lemma httpManagerConfigOf_first filters pre f post :
  firstManager filters pre f post ->
  httpManagerConfigOf filters = Ok (NetworkFilter.Config f).
Proof.
  intros (-> & Hpre & Hf). induction pre as [|p pre IH]; simpl.
  - now rewrite Hf, String.eqb_refl.
  - destruct (passed_cons_inv p pre Hpre) as (g & -> & Hg & Hrest).
    simpl. rewrite Hg. now apply IH.
Qed.

(** The search panics at the first [nil] pointer it reads. *)
Lemma httpManagerConfigOf_nil pre post :
  Forall passed pre ->
  httpManagerConfigOf (pre ++ None :: post) = Panic NilDereference.
Proof.
  intros Hpre. induction pre as [|p pre IH]; simpl; [reflexivity|].
  destruct (passed_cons_inv p pre Hpre) as (g & -> & Hg & Hrest).
  simpl. rewrite Hg. now apply IH.
Qed.

(** A chain is passed from end to end, or holds a first [nil] pointer, or
    a first connection manager filter, whichever the loop reads first. *)
Lemma chain_cases filters :
  Forall passed filters \/
  (exists pre post, filters = pre ++ None :: post /\ Forall passed pre) \/
  (exists pre f post, firstManager filters pre f post).
Proof.
  induction filters as [|p rest IH]; [left; constructor|].
  destruct p as [g|].
  - destruct (String.eqb_spec (NetworkFilter.Name g) HTTPConnectionManager) as [E|NE].
    + right; right. exists [], g, rest. repeat split; [constructor | exact E].
    + assert (Hg : passed (Some g)) by (exists g; auto).
      destruct IH as [Hall | [(pre & post & -> & Hpre) | (pre & f & post & -> & Hpre & Hf)]].
      * left. now constructor.
      * right; left. exists (Some g :: pre), post. split; [reflexivity | now constructor].
      * right; right. exists (Some g :: pre), f, post.
        repeat split; [now constructor | exact Hf].
  - right; left. exists [], rest. split; [reflexivity | constructor].
Qed.

Lemma storeHTTPManagerConfig_first filters pre f post cfg :
  firstManager filters pre f post ->
  storeHTTPManagerConfig filters cfg
    = pre ++ Some (NetworkFilter.mk (NetworkFilter.Type_ f) (NetworkFilter.Name f)
                     (Some (HTTPFilterConfigPtr (Some cfg)))) :: post.
Proof.
  intros (-> & Hpre & Hf). induction pre as [|p pre IH]; simpl.
  - now rewrite Hf, String.eqb_refl.
  - destruct (passed_cons_inv p pre Hpre) as (g & -> & Hg & Hrest).
    rewrite Hg. f_equal. now apply IH.
Qed.

(** The store goes to the filter the loop stopped at. *)
Lemma httpManagerConfigOf_store filters c cfg :
  httpManagerConfigOf filters = Ok (Some c) ->
  httpManagerConfigOf (storeHTTPManagerConfig filters cfg)
    = Ok (Some (HTTPFilterConfigPtr (Some cfg))).
Proof.
  induction filters as [|[g|] rest IH]; intros H; simpl in *; try discriminate.
  destruct (NetworkFilter.Name g =? HTTPConnectionManager) eqn:E; simpl.
  - now rewrite E.
  - rewrite E. now apply IH.
Qed.

Lemma length_storeHTTPManagerConfig filters cfg :
  length (storeHTTPManagerConfig filters cfg) = length filters.
Proof.
  induction filters as [|[g|] rest IH]; simpl; [reflexivity| |congruence].
  destruct (NetworkFilter.Name g =? HTTPConnectionManager); simpl; congruence.
Qed.

(** The names of the chain, which the loop goes by, are not touched. *)
Lemma names_storeHTTPManagerConfig filters cfg :
  filterNames (storeHTTPManagerConfig filters cfg) = filterNames filters.
Proof.
  unfold filterNames.
  induction filters as [|[g|] rest IH]; simpl; [reflexivity| |congruence].
  destruct (NetworkFilter.Name g =? HTTPConnectionManager); simpl; congruence.
Qed.

Lemma updateHTTPListener_found l cfg :
  httpManagerConfigOf (Listener.Filters l)
    = Ok (Some (HTTPFilterConfigPtr (Some cfg))) ->
  exists l',
    updateHTTPListener (Some l) = Ok l' /\
    Listener.Name l' = Listener.Name l /\
    Listener.Filters l'
      = storeHTTPManagerConfig (Listener.Filters l)
          (HTTPFilterConfig.mk (HTTPFilterConfig.CodecType cfg)
             (HTTPFilterConfig.StatPrefix cfg)
             (authzHttp :: HTTPFilterConfig.Filters cfg)) /\
    httpManagerConfigOf (Listener.Filters l')
      = Ok (Some (HTTPFilterConfigPtr
                (Some (HTTPFilterConfig.mk (HTTPFilterConfig.CodecType cfg)
                         (HTTPFilterConfig.StatPrefix cfg)
                         (authzHttp :: HTTPFilterConfig.Filters cfg))))) /\
    httpSubFilters l' = authzHttp :: HTTPFilterConfig.Filters cfg.
Proof.
  intros H. unfold updateHTTPListener. cbn [deref bind]. rewrite H. cbn [deref bind].
  eexists. split; [reflexivity|]. cbn [Listener.Name Listener.Filters].
  split; [reflexivity|]. split; [reflexivity|].
  assert (Hst := httpManagerConfigOf_store (Listener.Filters l) _
    (HTTPFilterConfig.mk (HTTPFilterConfig.CodecType cfg)
       (HTTPFilterConfig.StatPrefix cfg)
       (authzHttp :: HTTPFilterConfig.Filters cfg)) H).
  split; [exact Hst|].
  unfold httpSubFilters. cbn [Listener.Filters app]. now rewrite Hst.
Qed.

Lemma updateHTTPListener_not_found l :
  httpManagerConfigOf (Listener.Filters l) = Ok None ->
  updateHTTPListener (Some l) = Ok l.
Proof. intros H. unfold updateHTTPListener. cbn [deref bind]. now rewrite H. Qed.

Lemma updateHTTPListener_chain l l' :
  updateHTTPListener (Some l) = Ok l' ->
  Listener.Name l' = Listener.Name l /\
  Listener.Address l' = Listener.Address l /\
  Listener.BindToPort l' = Listener.BindToPort l /\
  length (Listener.Filters l') = length (Listener.Filters l) /\
  filterNames (Listener.Filters l') = filterNames (Listener.Filters l).
Proof.
  unfold updateHTTPListener. cbn [deref bind].
  destruct (httpManagerConfigOf (Listener.Filters l)) as [[[[cfg|]|cfg|raw]|]|q];
    cbn [deref bind]; intros H; try discriminate H; injection H as <-;
    cbn [Listener.Name Listener.Address Listener.BindToPort Listener.Filters]; auto.
  repeat split; [apply length_storeHTTPManagerConfig | apply names_storeHTTPManagerConfig].
Qed.

Lemma protocolOf_other t : t <> "http" -> t <> "tcp" -> protocolOf t = HTTP.
Proof.
  intros Hh Ht. unfold protocolOf.
  destruct (String.eqb_spec t "http"); [contradiction|].
  destruct (String.eqb_spec t "tcp"); [contradiction|]. reflexivity.
Qed.

Lemma classifyListener_inbound l ip t :
  nth_error (nameTokens l) 0 = Some t ->
  nth_error (nameTokens l) 1 = Some ip ->
  classifyListener (Some l) ip = Ok (INBOUND, protocolOf t).
Proof.
  intros H0 H1. rewrite (classifyListener_tokens l ip t ip H0 H1).
  now rewrite String.eqb_refl.
Qed.

Lemma isHTTPAuthz_authzHttp : isHTTPAuthz authzHttp.
Proof. split; [reflexivity|]. eexists. split; reflexivity. Qed.


(** The three ends of the HTTP path on a chain with a first connection
    manager filter, and its end on a chain passed from end to end. *)
Lemma updateHTTPListener_manager l pre f post cfg :
  firstManager (Listener.Filters l) pre f post ->
  NetworkFilter.Config f = Some (HTTPFilterConfigPtr (Some cfg)) ->
  exists l',
    updateHTTPListener (Some l) = Ok l' /\
    Listener.Name l' = Listener.Name l /\
    httpSubFilters l' = authzHttp :: HTTPFilterConfig.Filters cfg /\
    httpManagerConfigOf (Listener.Filters l')
      = Ok (Some (HTTPFilterConfigPtr
                (Some (HTTPFilterConfig.mk (HTTPFilterConfig.CodecType cfg)
                         (HTTPFilterConfig.StatPrefix cfg)
                         (authzHttp :: HTTPFilterConfig.Filters cfg))))) /\
    nth_error (Listener.Filters l') (length pre)
      = Some (Some (NetworkFilter.mk (NetworkFilter.Type_ f) (NetworkFilter.Name f)
                      (Some (HTTPFilterConfigPtr
                         (Some (HTTPFilterConfig.mk (HTTPFilterConfig.CodecType cfg)
                                  (HTTPFilterConfig.StatPrefix cfg)
                                  (authzHttp :: HTTPFilterConfig.Filters cfg))))))).
Proof.
  intros Hfirst Hcfg.
  pose proof (httpManagerConfigOf_first _ _ _ _ Hfirst) as Hfind.
  rewrite Hcfg in Hfind.
  destruct (updateHTTPListener_found l cfg Hfind) as (l' & Hl' & Hn & Hfs & Hfind' & Hsub).
  exists l'. repeat split; try assumption.
  rewrite Hfs, (storeHTTPManagerConfig_first _ _ _ _ _ Hfirst).
  rewrite nth_error_app2 by lia. now rewrite Nat.sub_diag.
Qed.

Lemma updateHTTPListener_no_config l pre f post :
  firstManager (Listener.Filters l) pre f post ->
  NetworkFilter.Config f = None ->
  updateHTTPListener (Some l) = Ok l.
Proof.
  intros Hfirst Hcfg. apply updateHTTPListener_not_found.
  rewrite (httpManagerConfigOf_first _ _ _ _ Hfirst). now rewrite Hcfg.
Qed.

Lemma updateHTTPListener_passed l :
  Forall passed (Listener.Filters l) -> updateHTTPListener (Some l) = Ok l.
Proof.
  intros H. apply updateHTTPListener_not_found. now apply httpManagerConfigOf_passed.
Qed.

(** C1 (amended): an entry whose name has first token "http" and second
    token the proxy's own address, and whose first filter named
    HTTPConnectionManager, with no nil pointer before it in the chain,
    carries a non-nil HTTP filter configuration, comes out of
    [updateListener] with that configuration's sub-filter sequence one
    longer: an authorization filter (name envoy.ext_authz, backing cluster
    calico.dikastes) at index 0 and the original sub-filters after it, in
    order; the filter at that position of the chain keeps its type and
    its name.  When that filter carries no configuration, and when every
    pointer of the chain is non-nil and no filter has the name, the entry
    is returned as it was. *)
Theorem updateListener_http_inbound l ip :
  nth_error (nameTokens l) 0 = Some "http" ->
  nth_error (nameTokens l) 1 = Some ip ->
  (forall pre f post cfg,
     firstManager (Listener.Filters l) pre f post ->
     NetworkFilter.Config f = Some (HTTPFilterConfigPtr (Some cfg)) ->
     exists l' a cfg',
       updateListener (Some l) ip = Ok l' /\
       httpSubFilters l' = a :: HTTPFilterConfig.Filters cfg /\
       isHTTPAuthz a /\
       length (httpSubFilters l') = length (HTTPFilterConfig.Filters cfg) + 1 /\
       nth_error (httpSubFilters l') 0 = Some a /\
       (forall i, nth_error (httpSubFilters l') (S i)
                  = nth_error (HTTPFilterConfig.Filters cfg) i) /\
       nth_error (Listener.Filters l') (length pre)
         = Some (Some (NetworkFilter.mk (NetworkFilter.Type_ f) (NetworkFilter.Name f)
                         (Some (HTTPFilterConfigPtr (Some cfg'))))) /\
       HTTPFilterConfig.Filters cfg' = a :: HTTPFilterConfig.Filters cfg) /\
  (forall pre f post,
     firstManager (Listener.Filters l) pre f post ->
     NetworkFilter.Config f = None ->
     updateListener (Some l) ip = Ok l) /\
  (Forall passed (Listener.Filters l) -> updateListener (Some l) ip = Ok l).
Proof.
  intros H0 H1.
  pose proof (classifyListener_inbound l ip _ H0 H1) as Hc.
  change (protocolOf "http") with HTTP in Hc.
  rewrite (updateListener_classified l ip _ _ Hc).
  split; [|split].
  - intros pre f post cfg Hfirst Hcfg.
    destruct (updateHTTPListener_manager l pre f post cfg Hfirst Hcfg)
      as (l' & Hl' & _ & Hsub & _ & Hpos).
    exists l', authzHttp. eexists. rewrite Hsub.
    split; [exact Hl'|]. split; [reflexivity|].
    split; [exact isHTTPAuthz_authzHttp|].
    split; [simpl; lia|]. split; [reflexivity|]. split; [reflexivity|].
    split; [exact Hpos | reflexivity].
  - apply updateHTTPListener_no_config.
  - apply updateHTTPListener_passed.
Qed.

(** C2: an entry whose name has first token "tcp" and second token the
    proxy's own address comes out of [updateListener] with its top-level
    filter sequence one longer, the first element being the authorization
    filter, whose stat-prefix is its own name (envoy.ext_authz) and whose
    backing cluster is calico.dikastes. *)
Theorem updateListener_tcp_inbound l ip :
  nth_error (nameTokens l) 0 = Some "tcp" ->
  nth_error (nameTokens l) 1 = Some ip ->
  exists l',
    updateListener (Some l) ip = Ok l' /\
    Listener.Filters l' = Some authzTCP :: Listener.Filters l /\
    length (Listener.Filters l') = length (Listener.Filters l) + 1 /\
    nth_error (Listener.Filters l') 0 = Some (Some authzTCP) /\
    NetworkFilter.Name authzTCP = "envoy.ext_authz" /\
    (exists a, networkAuthzConfig authzTCP = Some a /\
               AuthzFilterConfig.StatPrefix a = NetworkFilter.Name authzTCP /\
               clusterReference a = Some "calico.dikastes").
Proof.
  intros H0 H1.
  pose proof (classifyListener_inbound l ip _ H0 H1) as Hc.
  change (protocolOf "tcp") with TCP in Hc.
  rewrite (updateListener_classified l ip _ _ Hc).
  eexists. split; [reflexivity|]. repeat split.
  - simpl. lia.
  - eexists. repeat split.
Qed.

(** C3: for an entry classified VIRTUAL (its name is the sentinel
    "virtual") or OUTBOUND (the second token of its name differs from the
    proxy's own address), [updateListener] returns the entry itself, every
    field and the filter sequence included. *)
Theorem updateListener_outbound_virtual_unchanged l ip :
  Listener.Name l = "virtual" \/
  (exists a, nth_error (nameTokens l) 1 = Some a /\ a <> ip) ->
  (exists d p, classifyListener (Some l) ip = Ok (d, p) /\
               (d = VIRTUAL \/ d = OUTBOUND)) /\
  updateListener (Some l) ip = Ok l.
Proof.
  intros [E | (a & Ha & Hne)].
  - pose proof (classifyListener_virtual l ip E) as Hc.
    rewrite (updateListener_classified l ip _ _ Hc).
    split; [|reflexivity]. exists VIRTUAL, zeroProtocol. auto.
  - destruct (first_token_exists l) as [t Ht].
    pose proof (classifyListener_tokens l ip t a Ht Ha) as Hc.
    destruct (String.eqb_spec a ip) as [|_]; [contradiction|].
    rewrite (updateListener_classified l ip _ _ Hc).
    split; [|reflexivity]. exists OUTBOUND, (protocolOf t). auto.
Qed.

(** C4 (amended): an entry whose name has a first token that is neither
    "http" nor "tcp" and a second token equal to the proxy's own address
    is classified INBOUND with the protocol's zero value, HTTP, and
    [updateListener] handles it as [updateHTTPListener] does: unchanged
    when the first filter named HTTPConnectionManager, with no nil pointer
    before it, carries no configuration, and when every pointer of the
    chain is non-nil and no filter has the name; an authorization filter
    prepended to the sub-filters when that first filter carries a non-nil
    HTTP filter configuration.  Whenever it returns, the top-level filter
    chain keeps its length and its names: the network authorization filter
    is not inserted. *)
Theorem updateListener_unknown_protocol l ip t :
  nth_error (nameTokens l) 0 = Some t ->
  t <> "http" -> t <> "tcp" ->
  nth_error (nameTokens l) 1 = Some ip ->
  classifyListener (Some l) ip = Ok (INBOUND, HTTP) /\
  updateListener (Some l) ip = updateHTTPListener (Some l) /\
  (forall pre f post,
     firstManager (Listener.Filters l) pre f post ->
     NetworkFilter.Config f = None ->
     updateListener (Some l) ip = Ok l) /\
  (Forall passed (Listener.Filters l) -> updateListener (Some l) ip = Ok l) /\
  (forall pre f post cfg,
     firstManager (Listener.Filters l) pre f post ->
     NetworkFilter.Config f = Some (HTTPFilterConfigPtr (Some cfg)) ->
     exists l' a,
       updateListener (Some l) ip = Ok l' /\
       httpSubFilters l' = a :: HTTPFilterConfig.Filters cfg /\
       isHTTPAuthz a) /\
  (forall l',
     updateListener (Some l) ip = Ok l' ->
     length (Listener.Filters l') = length (Listener.Filters l) /\
     filterNames (Listener.Filters l') = filterNames (Listener.Filters l)).
Proof.
  intros H0 Hh Ht H1.
  pose proof (classifyListener_inbound l ip _ H0 H1) as Hc.
  rewrite (protocolOf_other t Hh Ht) in Hc.
  rewrite (updateListener_classified l ip _ _ Hc).
  split; [exact Hc|]. split; [reflexivity|].
  split; [apply updateHTTPListener_no_config|].
  split; [apply updateHTTPListener_passed|]. split.
  - intros pre f post cfg Hfirst Hcfg.
    destruct (updateHTTPListener_manager l pre f post cfg Hfirst Hcfg)
      as (l' & Hl' & _ & Hsub & _).
    exists l', authzHttp. split; [exact Hl'|]. split; [exact Hsub|].
    exact isHTTPAuthz_authzHttp.
  - intros l' Hl'.
    now destruct (updateHTTPListener_chain l l' Hl') as (_ & _ & _ & ? & ?).
Qed.


(** C10 (amended): the authorization filter the engine inserts is
    registered as envoy.ext_authz and refers to the backing cluster
    calico.dikastes in both variants.  The network (TCP) variant carries a
    stat-prefix, its own name; the HTTP (decoder) variant is built without
    one: its stat-prefix is the empty string. *)
Theorem inserted_authz_configuration :
  (forall l pre f post cfg,
     firstManager (Listener.Filters l) pre f post ->
     NetworkFilter.Config f = Some (HTTPFilterConfigPtr (Some cfg)) ->
     exists l' a c,
       updateHTTPListener (Some l) = Ok l' /\
       nth_error (httpSubFilters l') 0 = Some a /\
       HTTPFilter.Type_ a = "decoder" /\
       HTTPFilter.Name a = "envoy.ext_authz" /\
       httpAuthzConfig a = Some c /\
       AuthzFilterConfig.StatPrefix c = "" /\
       clusterReference c = Some "calico.dikastes") /\
  (forall l,
     exists l' f c,
       updateTCPListener (Some l) = Ok l' /\
       nth_error (Listener.Filters l') 0 = Some (Some f) /\
       NetworkFilter.Type_ f = "read" /\
       NetworkFilter.Name f = "envoy.ext_authz" /\
       networkAuthzConfig f = Some c /\
       AuthzFilterConfig.StatPrefix c = NetworkFilter.Name f /\
       AuthzFilterConfig.StatPrefix c = "envoy.ext_authz" /\
       clusterReference c = Some "calico.dikastes").
Proof.
  split.
  - intros l pre f post cfg Hfirst Hcfg.
    destruct (updateHTTPListener_manager l pre f post cfg Hfirst Hcfg)
      as (l' & Hl' & _ & Hsub & _).
    exists l', authzHttp. eexists. rewrite Hsub. repeat split. exact Hl'.
  - intros l. eexists. exists authzTCP. eexists. repeat split.
Qed.

(** ** The response mediator *)

(** With a self-descriptor of at least two tokens the handler gets past
    both slice accesses. *)
Lemma listeners_descriptor req resp nodeType ip rest :
  Split (serviceNodeOf req) serviceNodeSeparator = nodeType :: ip :: rest ->
  listeners req resp =
    if negb (nodeType =? "sidecar") then Ok (ioCopy resp (Request.Body req))
    else
      if Reader.err (Request.Body req)
      then Ok (WriteErrorString resp StatusInternalServerError "failed to read request")
      else
        match Unmarshal (Reader.data (Request.Body req)) with
        | None =>
            Ok (WriteErrorString resp StatusBadRequest "could not parse request JSON")
        | Some lds =>
            ls <- forRange (fun l => updateListener l ip) (ldsResponse.Listeners lds) ;;
            match Marshal (ldsResponse.mk (map Some ls)) with
            | None =>
                Ok (WriteErrorString resp StatusInternalServerError "internal error")
            | Some out => Ok (Write resp out)
            end
        end.
Proof.
  intros Hc. unfold listeners, serviceNodeOf in *. rewrite Hc. reflexivity.
Qed.

(** With the role alone the access [c[1]] panics, whatever the role is. *)
Lemma listeners_short_descriptor req resp :
  length (Split (serviceNodeOf req) serviceNodeSeparator) < 2 ->
  listeners req resp = Panic (IndexOutOfRange 1 1).
Proof.
  intros Hlen. unfold listeners, serviceNodeOf in *.
  pose proof (Split_nonempty
    (PathParameter (Request.pathParameters req) "serviceNode") _
    serviceNodeSeparator_nonempty) as Hne.
  destruct (Split _ _) as [|t [|u rest]]; simpl in Hlen;
    [contradiction | reflexivity | lia].
Qed.

Lemma short_name_one_token l :
  length (nameTokens l) < 2 ->
  length (nameTokens l) = 1 /\ nth_error (nameTokens l) 1 = None.
Proof.
  intros Hlen. destruct (first_token_exists l) as [t Ht].
  destruct (nameTokens l) as [|t' [|u rest]]; simpl in *;
    [discriminate | auto | lia].
Qed.

(** C5 (amended): for an entry whose name is not "virtual" and has fewer
    than two tokens, the classifier's access to the first token is in
    range and its access to the second token is out of range: the
    classifier panics, [updateListener] panics with it, and so does the
    handler of a sidecar's listener document that holds such an entry: the
    document is not processed further and no response is written. *)
Theorem listeners_short_name_panics req resp ip rest body lds l :
  Split (serviceNodeOf req) serviceNodeSeparator = "sidecar" :: ip :: rest ->
  ReadAll (Request.Body req) = (body, false) ->
  Unmarshal body = Some lds ->
  In (Some l) (ldsResponse.Listeners lds) ->
  Listener.Name l <> "virtual" ->
  length (nameTokens l) < 2 ->
  (exists t, index (nameTokens l) 0 = Ok t) /\
  index (nameTokens l) 1 = Panic (IndexOutOfRange 1 1) /\
  classifyListener (Some l) ip = Panic (IndexOutOfRange 1 1) /\
  updateListener (Some l) ip = Panic (IndexOutOfRange 1 1) /\
  (exists q, forRange (fun e => updateListener e ip) (ldsResponse.Listeners lds) = Panic q) /\
  (exists q, listeners req resp = Panic q).
Proof.
  intros Hsn Hread Hdec Hin NE Hlen.
  destruct (short_name_one_token l Hlen) as [Hone Hnone].
  pose proof (classifyListener_no_second_token l ip NE Hnone) as Hc.
  rewrite Hone in Hc.
  pose proof (updateListener_panics (Some l) ip _ Hc) as Hu.
  destruct (forRange_panics (fun e => updateListener e ip) _ (Some l) _ Hin Hu) as [q Hq].
  split; [apply index_0_Split, listenerNameSeparator_nonempty|].
  split; [unfold index; rewrite Hnone, Hone; reflexivity|].
  split; [exact Hc|]. split; [exact Hu|]. split; [now exists q|].
  exists q. rewrite (listeners_descriptor req resp _ _ _ Hsn).
  unfold ReadAll in Hread. injection Hread as Hdata Herr.
  rewrite Herr, Hdata, Hdec. cbn [negb String.eqb Ascii.eqb Bool.eqb].
  simpl negb. now rewrite Hq.
Qed.

(** C6: on a cluster document that is read and decoded, [clusters] with
    the flag set encodes the document with exactly one cluster appended at
    the end, the clusters before it as they were and in order: name
    calico.dikastes, connect timeout 5000 ms, static type, circuit breaker
    with 10000 pending requests and 10000 requests at most, round-robin
    load balancing, the HTTP/2 feature, and the single host
    unix:///var/run/dikastes/dikastes.sock.  With the flag unset it encodes
    the document as decoded. *)
Theorem clusters_appends_dikastes configOptions req resp body cds :
  ReadAll (Request.Body req) = (body, false) ->
  Unmarshal body = Some cds ->
  (options.SetCluster configOptions = true ->
   exists c cb,
     clusters configOptions req resp
       = encoded resp (cdsResponse.mk (cdsResponse.Clusters cds ++ [Some c])) /\
     length (cdsResponse.Clusters cds ++ [Some c])
       = length (cdsResponse.Clusters cds) + 1 /\
     firstn (length (cdsResponse.Clusters cds)) (cdsResponse.Clusters cds ++ [Some c])
       = cdsResponse.Clusters cds /\
     Cluster.Name c = "calico.dikastes" /\
     Cluster.ConnectTimeoutMs c = 5000%Z /\
     Cluster.Type_ c = ClusterTypeStatic /\
     Cluster.CircuitBreaker c = Some cb /\
     DefaultCBPriority.MaxPendingRequests (CircuitBreaker.Default cb) = 10000%Z /\
     DefaultCBPriority.MaxRequests (CircuitBreaker.Default cb) = 10000%Z /\
     Cluster.LbType c = LbTypeRoundRobin /\
     Cluster.Features c = ClusterFeatureHTTP2 /\
     Cluster.Hosts c = [Host.mk "unix:///var/run/dikastes/dikastes.sock"]) /\
  (options.SetCluster configOptions = false ->
   clusters configOptions req resp = encoded resp cds).
Proof.
  intros Hread Hdec. unfold ReadAll in Hread. injection Hread as Hdata Herr.
  unfold clusters, ReadAll. rewrite Herr, Hdata, Hdec. split; intros ->.
  - exists dikastesCluster. eexists. split; [reflexivity|].
    split; [rewrite length_app; reflexivity|].
    split; [|repeat split].
    rewrite firstn_app, Nat.sub_diag, firstn_all. simpl. apply app_nil_r.
  - reflexivity.
Qed.
(** C7 (amended): for a listener request whose self-descriptor has at
    least two tokens, the first of them not "sidecar", the handler copies
    the bytes of the request body to the response and answers 200,
    whatever the bytes are and whatever the codec would make of them. *)
Theorem listeners_not_sidecar_passthrough req nodeType ip rest :
  Split (serviceNodeOf req) serviceNodeSeparator = nodeType :: ip :: rest ->
  nodeType <> "sidecar" ->
  exists r,
    listeners req NewResponse = Ok r /\
    r = ioCopy NewResponse (Request.Body req) /\
    Response.statusCode r = 200%Z /\
    Response.body r = Reader.data (Request.Body req).
Proof.
  intros Hsn Hrole. rewrite (listeners_descriptor req _ _ _ _ Hsn).
  destruct (String.eqb_spec nodeType "sidecar") as [|_]; [contradiction|].
  eexists. split; [reflexivity|]. split; [reflexivity|].
  unfold ioCopy. now destruct (Reader.data (Request.Body req)).
Qed.

(** C8 (amended): for a listener request of a sidecar (self-descriptor of
    at least two tokens, the first "sidecar"), a failure to read the body
    gives the internal-error response, status 500 with the reason
    "failed to read request", and no success response. *)
Theorem listeners_sidecar_read_failure req ip rest :
  Split (serviceNodeOf req) serviceNodeSeparator = "sidecar" :: ip :: rest ->
  Reader.err (Request.Body req) = true ->
  exists r,
    listeners req NewResponse = Ok r /\
    Response.statusCode r = 500%Z /\
    Response.statusCode r <> StatusOK /\
    Response.body r = list_byte_of_string "failed to read request".
Proof.
  intros Hsn Herr. rewrite (listeners_descriptor req _ _ _ _ Hsn), Herr.
  eexists. split; [reflexivity|]. repeat split. discriminate.
Qed.

(** ** More on the run time: [strings.Split] at a one-byte separator *)

Lemma append_nil_r s : (s ++ "")%string = s.
Proof. induction s as [|a s IH]; simpl; [reflexivity | now rewrite IH]. Qed.

Lemma append_assoc s1 s2 s3 : ((s1 ++ s2) ++ s3 = s1 ++ (s2 ++ s3))%string.
Proof. induction s1 as [|a s1 IH]; simpl; [reflexivity | now rewrite IH]. Qed.

(** Up to the first occurrence of a one-byte separator. *)
Lemma splitFrom_byte_cons c tok rest cur :
  containsByte c tok = false ->
  splitFrom (String c "") (tok ++ String c rest) 0 cur
    = (cur ++ tok)%string :: splitFrom (String c "") rest 0 "".
Proof.
  revert cur. induction tok as [|a tok IH]; intros cur H.
  - simpl. destruct (ascii_dec c c) as [_|]; [|contradiction].
    replace (prefix "" rest) with true by (now destruct rest).
    now rewrite append_nil_r.
  - simpl in H. destruct (Ascii.eqb_spec a c) as [|Hne]; [discriminate|].
    cbn [append splitFrom prefix].
    destruct (ascii_dec c a) as [->|_]; [contradiction|].
    rewrite (IH _ H). now rewrite append_assoc.
Qed.

Lemma Split_byte_cons c tok rest :
  containsByte c tok = false ->
  Split (tok ++ String c rest) (String c "") = tok :: Split rest (String c "").
Proof. intros H. unfold Split. now rewrite (splitFrom_byte_cons c tok rest "" H). Qed.

(** ** More on the naming classifier *)

Lemma protocolOf_TCP t : protocolOf t = TCP <-> t = "tcp".
Proof.
  unfold protocolOf.
  destruct (String.eqb_spec t "http") as [->|_]; [split; discriminate|].
  destruct (String.eqb_spec t "tcp") as [->|Hne]; [now split|].
  split; [discriminate | contradiction].
Qed.

Lemma second_token_length l a :
  nth_error (nameTokens l) 1 = Some a -> 2 <= length (nameTokens l).
Proof.
  intros H. assert (Hlt : 1 < length (nameTokens l))
    by (apply nth_error_Some; rewrite H; discriminate). lia.
Qed.

Lemma no_second_token_length l :
  nth_error (nameTokens l) 1 = None -> length (nameTokens l) < 2.
Proof. intros H. apply nth_error_None in H. lia. Qed.

Lemma classifyListener_Ok_ref listener ip dp :
  classifyListener listener ip = Ok dp -> exists l, listener = Some l.
Proof. destruct listener as [l|]; [now exists l | discriminate]. Qed.

(** X1: whenever [classifyListener] returns, its pointer is not nil and
    the direction and the protocol are read off the name alone: VIRTUAL
    exactly for the name "virtual", INBOUND exactly when the second token
    is the given address, OUTBOUND exactly when there is a second token
    and it differs, and TCP exactly when the first token is "tcp" (HTTP
    otherwise). *)
Theorem classifyListener_reads_name listener ip d p :
  classifyListener listener ip = Ok (d, p) ->
  exists l,
    listener = Some l /\
    (d = VIRTUAL <-> Listener.Name l = "virtual") /\
    (d = INBOUND <-> nth_error (nameTokens l) 1 = Some ip) /\
    (d = OUTBOUND <-> exists a, nth_error (nameTokens l) 1 = Some a /\ a <> ip) /\
    (p = TCP <-> nth_error (nameTokens l) 0 = Some "tcp") /\
    (p = HTTP <-> nth_error (nameTokens l) 0 <> Some "tcp").
Proof.
  intros H. destruct (classifyListener_Ok_ref _ _ _ H) as [l ->].
  exists l. split; [reflexivity|].
  destruct (classifyListener_direction l ip d p H) as (Hv & Hi & Ho).
  split; [exact Hv|]. split; [exact Hi|]. split; [exact Ho|].
  assert (Hp : p = TCP <-> nth_error (nameTokens l) 0 = Some "tcp").
  { destruct (String.eqb_spec (Listener.Name l) "virtual") as [E|NE].
    - rewrite (classifyListener_virtual l ip E) in H. injection H as <- <-.
      unfold nameTokens. rewrite E. split; discriminate.
    - destruct (first_token_exists l) as [t Ht].
      destruct (nth_error (nameTokens l) 1) as [a|] eqn:Ha.
      + rewrite (classifyListener_tokens l ip t a Ht Ha) in H.
        injection H as _ <-. rewrite Ht, protocolOf_TCP.
        split; [now intros -> | now intros [= ->]].
      + rewrite (classifyListener_no_second_token l ip NE Ha) in H.
        discriminate H. }
  split; [exact Hp|].
  rewrite <- Hp. destruct p; split; congruence.
Qed.

(** X2: [classifyListener] panics in exactly two situations: on a nil
    pointer, with a nil dereference at [listener.Name]; and on a name
    other than "virtual" that has fewer than two tokens, with the
    out-of-range access to the second token. *)
Theorem classifyListener_panics_iff listener ip q :
  classifyListener listener ip = Panic q <->
  (listener = None /\ q = NilDereference) \/
  (exists l,
     listener = Some l /\
     q = IndexOutOfRange 1 1 /\
     Listener.Name l <> "virtual" /\
     length (nameTokens l) < 2).
Proof.
  destruct listener as [l|].
  - split.
    + intros H. right. exists l. split; [reflexivity|].
      destruct (String.eqb_spec (Listener.Name l) "virtual") as [E|NE].
      * rewrite (classifyListener_virtual l ip E) in H. discriminate H.
      * destruct (first_token_exists l) as [t Ht].
        destruct (nth_error (nameTokens l) 1) as [a|] eqn:Ha.
        -- rewrite (classifyListener_tokens l ip t a Ht Ha) in H. discriminate H.
        -- pose proof (no_second_token_length l Ha) as Hlen.
           rewrite (classifyListener_no_second_token l ip NE Ha) in H.
           destruct (short_name_one_token l Hlen) as [Hone _].
           rewrite Hone in H. injection H as <-. auto.
    + intros [[H _] | (l0 & [= <-] & -> & NE & Hlen)]; [discriminate H|].
      destruct (short_name_one_token l Hlen) as [Hone Hnone].
      rewrite (classifyListener_no_second_token l ip NE Hnone). now rewrite Hone.
  - rewrite classifyListener_nil. split.
    + intros [= <-]. now left.
    + intros [[_ ->] | (l & H & _)]; [reflexivity | discriminate H].
Qed.

Lemma nameTokens_listenerName l proto ip port :
  containsByte "_" proto = false ->
  containsByte "_" ip = false ->
  Listener.Name l = listenerName proto ip port ->
  nameTokens l = proto :: ip :: Split port listenerNameSeparator.
Proof.
  intros Hproto Hip Hname. unfold nameTokens, listenerName in *. rewrite Hname.
  change listenerNameSeparator with (String "_" "").
  change (proto ++ String "_" "" ++ ip ++ String "_" "" ++ port)%string
    with (proto ++ String "_" (ip ++ String "_" port))%string.
  now rewrite (Split_byte_cons _ _ _ Hproto), (Split_byte_cons _ _ _ Hip).
Qed.

(** X3: a listener named by the convention protocol_address_port, with no
    separator inside the protocol and the address, is INBOUND for that
    address and OUTBOUND for every other one, whatever the port; its
    protocol is TCP for "tcp" and HTTP for every other protocol token. *)
Theorem classifyListener_conventional_name l proto ip port :
  containsByte "_" proto = false ->
  containsByte "_" ip = false ->
  Listener.Name l = listenerName proto ip port ->
  exists p,
    classifyListener (Some l) ip = Ok (INBOUND, p) /\
    (forall ip', ip' <> ip -> classifyListener (Some l) ip' = Ok (OUTBOUND, p)) /\
    (p = TCP <-> proto = "tcp").
Proof.
  intros Hproto Hip Hname.
  pose proof (nameTokens_listenerName l proto ip port Hproto Hip Hname) as Htok.
  assert (H0 : nth_error (nameTokens l) 0 = Some proto) by now rewrite Htok.
  assert (H1 : nth_error (nameTokens l) 1 = Some ip) by now rewrite Htok.
  exists (protocolOf proto).
  split; [apply classifyListener_inbound; assumption|].
  split; [|apply protocolOf_TCP].
  intros ip' Hne. rewrite (classifyListener_tokens l ip' proto ip H0 H1).
  destruct (String.eqb_spec ip ip') as [E|_]; [now subst | reflexivity].
Qed.

(** X4: the self-descriptor the tests build from a role and an address,
    neither holding the separator, splits back into that role and that
    address: the handler reads them as its first and second token. *)
Theorem serviceNode_Split nodeType ip :
  containsByte "~" nodeType = false ->
  containsByte "~" ip = false ->
  Split (Fixture.serviceNode nodeType ip) serviceNodeSeparator
    = [nodeType; ip; "other"; "items"].
Proof.
  intros Hrole Hip. unfold Fixture.serviceNode.
  change serviceNodeSeparator with (String "~" "").
  change (nodeType ++ "~" ++ ip ++ "~other~items")%string
    with (nodeType ++ String "~" (ip ++ String "~" "other~items"))%string.
  now rewrite (Split_byte_cons _ _ _ Hrole), (Split_byte_cons _ _ _ Hip).
Qed.

(** ** More on the filter insertion engine *)

Lemma updateListener_Ok_ref listener ip l' :
  updateListener listener ip = Ok l' -> exists l, listener = Some l.
Proof. destruct listener as [l|]; [now exists l | discriminate]. Qed.

(** X7: what [updateListener] returns is the entry it was given in all
    but its filters: name, address and port binding are kept, and the
    names of the chain are the old ones in the old order, with at most one
    name in front of them, envoy.ext_authz.  No filter is dropped,
    renamed or moved. *)
Theorem updateListener_keeps_entry listener ip l' :
  updateListener listener ip = Ok l' ->
  exists l,
    listener = Some l /\
    Listener.Name l' = Listener.Name l /\
    Listener.Address l' = Listener.Address l /\
    Listener.BindToPort l' = Listener.BindToPort l /\
    (filterNames (Listener.Filters l') = filterNames (Listener.Filters l) \/
     filterNames (Listener.Filters l')
       = Some "envoy.ext_authz" :: filterNames (Listener.Filters l)).
Proof.
  intros H. destruct (updateListener_Ok_ref _ _ _ H) as [l ->].
  exists l. split; [reflexivity|].
  destruct (classifyListener (Some l) ip) as [[d p]|q] eqn:Hc.
  - rewrite (updateListener_classified l ip d p Hc) in H.
    destruct d; [destruct p|..].
    + destruct (updateHTTPListener_chain l l' H) as (Hn & Ha & Hb & _ & Hnames). auto.
    + injection H as <-. repeat split. now right.
    + injection H as <-. auto.
    + injection H as <-. auto.
  - rewrite (updateListener_panics (Some l) ip q Hc) in H. discriminate H.
Qed.

(** The HTTP path returns exactly on the usable chains. *)
Lemma updateHTTPListener_returns_iff l :
  (exists l', updateHTTPListener (Some l) = Ok l') <->
  managerUsable (Listener.Filters l).
Proof.
  split.
  - intros [l' H].
    destruct (chain_cases (Listener.Filters l))
      as [Hall | [(pre & post & Hfs & Hpre) | (pre & f & post & Hfirst)]].
    + now left.
    + exfalso. unfold updateHTTPListener in H. cbn [deref bind] in H.
      rewrite Hfs, (httpManagerConfigOf_nil pre post Hpre) in H. discriminate H.
    + right. exists pre, f, post. split; [exact Hfirst|].
      unfold updateHTTPListener in H. cbn [deref bind] in H.
      rewrite (httpManagerConfigOf_first _ _ _ _ Hfirst) in H.
      destruct (NetworkFilter.Config f) as [[[cfg|]|cfg|raw]|];
        try discriminate H; [right; now exists cfg | now left].
  - intros [Hall | (pre & f & post & Hfirst & [Hnone | [cfg Hcfg]])].
    + exists l. now apply updateHTTPListener_passed.
    + exists l. now apply (updateHTTPListener_no_config l pre f post).
    + destruct (updateHTTPListener_manager l pre f post cfg Hfirst Hcfg)
        as (l' & Hl' & _). now exists l'.
Qed.

(** X8: [updateListener] returns exactly when its pointer is not nil, the
    name is "virtual" or has at least two tokens and, for an entry
    addressed to the proxy whose first token is not "tcp", the loop reads
    no nil pointer up to the first connection manager filter (or the end
    of the chain) and that filter carries no configuration or a non-nil
    HTTP filter configuration.  In every other case it panics. *)
Theorem updateListener_returns_iff listener ip :
  (exists l', updateListener listener ip = Ok l') <->
  exists l,
    listener = Some l /\
    (Listener.Name l = "virtual" \/ 2 <= length (nameTokens l)) /\
    (nth_error (nameTokens l) 1 = Some ip ->
     nth_error (nameTokens l) 0 <> Some "tcp" ->
     managerUsable (Listener.Filters l)).
Proof.
  destruct listener as [l|];
    [|split; [intros [l' H]; discriminate H | intros (l & H & _); discriminate H]].
  assert (Hgoal :
    (exists l', updateListener (Some l) ip = Ok l') <->
    (Listener.Name l = "virtual" \/ 2 <= length (nameTokens l)) /\
    (nth_error (nameTokens l) 1 = Some ip ->
     nth_error (nameTokens l) 0 <> Some "tcp" ->
     managerUsable (Listener.Filters l))).
  { destruct (String.eqb_spec (Listener.Name l) "virtual") as [E|NE].
    - pose proof (classifyListener_virtual l ip E) as Hc.
      rewrite (updateListener_classified l ip _ _ Hc).
      split; [intros _ | intros _; now exists l].
      split; [now left|]. intros H1. unfold nameTokens in H1. rewrite E in H1.
      discriminate H1.
    - destruct (first_token_exists l) as [t Ht].
      destruct (nth_error (nameTokens l) 1) as [a|] eqn:Ha.
      + pose proof (classifyListener_tokens l ip t a Ht Ha) as Hc.
        rewrite (updateListener_classified l ip _ _ Hc).
        pose proof (second_token_length l a Ha) as Hlen.
        destruct (String.eqb_spec a ip) as [->|Hne].
        * destruct (protocolOf t) eqn:Hp.
          -- assert (Htcp : t <> "tcp") by (intros ->; discriminate Hp).
             rewrite updateHTTPListener_returns_iff. rewrite Ht.
             split; [intros H; split; [now right | auto]|].
             intros [_ H]. apply H; [reflexivity | congruence].
          -- apply protocolOf_TCP in Hp. subst t.
             split; [intros _ | intros _; eexists; reflexivity].
             split; [now right|]. intros _ Hn. now rewrite Ht in Hn.
        * split; [intros _ | intros _; now exists l].
          split; [now right|]. intros [= E]. contradiction.
      + pose proof (classifyListener_no_second_token l ip NE Ha) as Hc.
        rewrite (updateListener_panics (Some l) ip _ Hc).
        pose proof (no_second_token_length l Ha) as Hlen.
        split; [intros [l' Hl']; discriminate Hl'|].
        intros [[E | Hge] _]; [contradiction | lia]. }
  rewrite Hgoal. split.
  - intros H. now exists l.
  - now intros (l0 & [= <-] & H).
Qed.
(** ** More on the response mediator *)

Lemma forRange_Ok_iff {A B : Type} (f : A -> result B) xs ys :
  forRange f xs = Ok ys <-> Forall2 (fun x y => f x = Ok y) xs ys.
Proof.
  revert ys. induction xs as [|x xs IH]; intros ys; simpl.
  - split; [intros [= <-]; constructor | intros H; now inversion H].
  - split.
    + destruct (f x) as [x'|] eqn:Hx; simpl; [|discriminate].
      destruct (forRange f xs) as [xs'|] eqn:Hxs; simpl; [|discriminate].
      intros [= <-]. constructor; [exact Hx | now apply IH].
    + intros H. inversion H as [|x0 y xs0 ys' Hx Hrest]; subst.
      rewrite Hx. simpl. apply IH in Hrest. now rewrite Hrest.
Qed.

(** The loop stops at the first entry that panics, with its panic. *)
Lemma forRange_Panic_inv {A B : Type} (f : A -> result B) xs q :
  forRange f xs = Panic q -> exists x, In x xs /\ f x = Panic q.
Proof.
  induction xs as [|x xs IH]; simpl; [discriminate|].
  destruct (f x) as [x'|q'] eqn:Hx; simpl.
  - destruct (forRange f xs) as [xs'|q'] eqn:Hxs; simpl; [discriminate|].
    intros [= ->]. destruct (IH eq_refl) as (y & Hin & Hy). exists y. auto.
  - intros [= ->]. exists x. auto.
Qed.

Lemma updateListener_name_kept l ip l' :
  updateListener (Some l) ip = Ok l' -> Listener.Name l' = Listener.Name l.
Proof.
  intros H. destruct (classifyListener (Some l) ip) as [[d p]|q] eqn:Hc.
  - rewrite (updateListener_classified l ip d p Hc) in H.
    destruct d; [destruct p|..]; try (now injection H as <-).
    now destruct (updateHTTPListener_chain l l' H).
  - rewrite (updateListener_panics (Some l) ip q Hc) in H. discriminate H.
Qed.

Lemma updateListener_not_addressed l ip l' :
  nth_error (nameTokens l) 1 <> Some ip ->
  updateListener (Some l) ip = Ok l' -> l' = l.
Proof.
  intros Hne H. destruct (classifyListener (Some l) ip) as [[d p]|q] eqn:Hc.
  - rewrite (updateListener_classified l ip d p Hc) in H.
    destruct (classifyListener_direction l ip d p Hc) as (_ & Hi & _).
    destruct d; try (now injection H as <-).
    exfalso. apply Hne. now apply Hi.
  - rewrite (updateListener_panics (Some l) ip q Hc) in H. discriminate H.
Qed.

(** X9: when the loop of [listeners] over a document's entries returns,
    no pointer of the document was nil and the document has as many
    entries as before, under the same names in the same order; the entry
    at each position is the update of the entry that was there, and the
    entries whose second token is not the proxy's address are the entries
    that were there. *)
Theorem updateListeners_positionwise ls ip ls' :
  forRange (fun l => updateListener l ip) ls = Ok ls' ->
  length ls' = length ls /\
  Forall (fun p => p <> None) ls /\
  map (option_map Listener.Name) ls = map (fun l' => Some (Listener.Name l')) ls' /\
  (forall i p, nth_error ls i = Some p ->
     exists l', nth_error ls' i = Some l' /\ updateListener p ip = Ok l') /\
  (forall i l, nth_error ls i = Some (Some l) ->
     nth_error (nameTokens l) 1 <> Some ip -> nth_error ls' i = Some l).
Proof.
  intros H. apply forRange_Ok_iff in H.
  induction H as [|p l' ls ls' Hl Hrest (IHlen & IHref & IHnames & IHupd & IHkeep)].
  - repeat split; try constructor; intros [|i] l H; discriminate H.
  - destruct (updateListener_Ok_ref _ _ _ Hl) as [l ->].
    split; [simpl; now rewrite IHlen|].
    split; [constructor; [discriminate | exact IHref]|].
    split; [simpl; now rewrite IHnames, (updateListener_name_kept l ip l' Hl)|].
    split.
    + intros [|i] e He; simpl in *.
      * injection He as <-. now exists l'.
      * now apply IHupd.
    + intros [|i] e He Hne; simpl in *.
      * injection He as <-. now rewrite (updateListener_not_addressed l ip l' Hne Hl).
      * now apply IHkeep.
Qed.

Lemma Split_short_or_long s sep :
  sep <> "" ->
  length (Split s sep) < 2 \/ exists t u rest, Split s sep = t :: u :: rest.
Proof.
  intros Hsep. pose proof (Split_nonempty s sep Hsep) as Hne.
  destruct (Split s sep) as [|t [|u rest]]; [contradiction | left | right].
  - simpl. lia.
  - now exists t, u, rest.
Qed.

(** X10: a listener request without the path parameter serviceNode, or
    with one of fewer than two tokens, makes the handler panic on its
    access to the second token, before the role is compared or a byte of
    the body is read: nothing is written, whatever the role. *)
Theorem listeners_short_descriptor_panics req resp :
  (forall v, ~ In ("serviceNode", v) (Request.pathParameters req)) \/
  length (Split (serviceNodeOf req) serviceNodeSeparator) < 2 ->
  listeners req resp = Panic (IndexOutOfRange 1 1).
Proof.
  intros [Hmissing | Hshort]; apply listeners_short_descriptor; [|exact Hshort].
  assert (E : serviceNodeOf req = "").
  { unfold serviceNodeOf.
    induction (Request.pathParameters req) as [|[k v] params IH]; [reflexivity|].
    simpl. destruct (String.eqb_spec k "serviceNode") as [->|_].
    - exfalso. apply (Hmissing v). now left.
    - apply IH. intros v' Hin. apply (Hmissing v'). now right. }
  rewrite E. simpl. lia.
Qed.

(** X11: with a self-descriptor of at least two tokens the listener
    handler panics in one case only: the proxy is a sidecar, the body was
    read and decoded, and [updateListener] panics on one of the decoded
    entries; the handler's panic is that entry's. *)
Theorem listeners_panic_source req resp nodeType ip rest q :
  Split (serviceNodeOf req) serviceNodeSeparator = nodeType :: ip :: rest ->
  listeners req resp = Panic q ->
  nodeType = "sidecar" /\
  Reader.err (Request.Body req) = false /\
  exists lds l,
    Unmarshal (Reader.data (Request.Body req)) = Some lds /\
    In l (ldsResponse.Listeners lds) /\
    updateListener l ip = Panic q.
Proof.
  intros Hsn. rewrite (listeners_descriptor req resp _ _ _ Hsn).
  destruct (String.eqb_spec nodeType "sidecar") as [->|_]; simpl; [|discriminate].
  destruct (Reader.err (Request.Body req)); [discriminate|].
  destruct (Unmarshal (Reader.data (Request.Body req))) as [lds|]; [|discriminate].
  destruct (forRange _ _) as [ls'|q'] eqn:Hloop; simpl.
  - destruct (Marshal _); discriminate.
  - intros [= ->]. destruct (forRange_Panic_inv _ _ _ Hloop) as (l & Hin & Hl).
    repeat split. now exists lds, l.
Qed.

(** X12: a 200 answer of the listener handler to a sidecar is the
    encoding of the decoded document after the loop: the body was read
    and decoded, every entry was updated, and the result was encoded and
    written in one piece. *)
Theorem listeners_sidecar_ok req ip rest r :
  Split (serviceNodeOf req) serviceNodeSeparator = "sidecar" :: ip :: rest ->
  listeners req NewResponse = Ok r ->
  Response.statusCode r = 200%Z ->
  Reader.err (Request.Body req) = false /\
  exists lds ls' out,
    Unmarshal (Reader.data (Request.Body req)) = Some lds /\
    forRange (fun l => updateListener l ip) (ldsResponse.Listeners lds) = Ok ls' /\
    Marshal (ldsResponse.mk (map Some ls')) = Some out /\
    r = Response.mk 200 true out.
Proof.
  intros Hsn. rewrite (listeners_descriptor req _ _ _ _ Hsn). simpl negb. cbv iota.
  destruct (Reader.err (Request.Body req)); [intros [= <-]; discriminate|].
  destruct (Unmarshal (Reader.data (Request.Body req))) as [lds|];
    [|intros [= <-]; discriminate].
  destruct (forRange _ _) as [ls'|q'] eqn:Hloop; simpl; [|discriminate].
  destruct (Marshal (ldsResponse.mk (map Some ls'))) as [out|] eqn:Henc;
    [|intros [= <-]; discriminate].
  intros [= <-] _. split; [reflexivity|]. now exists lds, ls', out.
Qed.

(** X13: whenever the listener handler returns, it answers 400 exactly
    when the proxy is a sidecar, the body was read and it does not decode;
    the body of that answer is the fixed reason, not the request. *)
Theorem listeners_bad_request_iff req r :
  listeners req NewResponse = Ok r ->
  (Response.statusCode r = 400%Z <->
   nth_error (Split (serviceNodeOf req) serviceNodeSeparator) 0 = Some "sidecar" /\
   Reader.err (Request.Body req) = false /\
   Unmarshal (A := ldsResponse.t) (Reader.data (Request.Body req)) = None) /\
  (Response.statusCode r = 400%Z ->
   Response.body r = list_byte_of_string "could not parse request JSON").
Proof.
  destruct (Split_short_or_long (serviceNodeOf req) _ serviceNodeSeparator_nonempty)
    as [Hshort | (t & u & rest & Hsn)].
  - rewrite (listeners_short_descriptor req _ Hshort). discriminate.
  - rewrite (listeners_descriptor req _ _ _ _ Hsn), Hsn. cbn [nth_error].
    destruct (String.eqb_spec t "sidecar") as [->|Hrole]; cbn [negb].
    + destruct (Reader.err (Request.Body req)).
      { intros [= <-]. split; [split; [discriminate | now intros (_ & ? & _)]|].
        discriminate. }
      destruct (Unmarshal (Reader.data (Request.Body req))) as [lds|].
      * destruct (forRange _ _) as [ls'|q']; cbn [bind]; [|discriminate].
        destruct (Marshal (ldsResponse.mk (map Some ls'))) as [out|]; intros [= <-];
          (split; [split; [discriminate | now intros (_ & _ & ?)] | discriminate]).
      * intros [= <-]. split; [split; auto | reflexivity].
    + intros [= <-]. split.
      * split; [|intros ([= E] & _); contradiction].
        unfold ioCopy. destruct (Reader.data (Request.Body req)); discriminate.
      * unfold ioCopy. destruct (Reader.data (Request.Body req)); discriminate.
Qed.

(** X14: whenever the listener handler returns, its status is 200, 400 or
    500, and an answer other than 200 carries one of the three fixed
    reasons, never bytes of the request. *)
Theorem listeners_statuses req r :
  listeners req NewResponse = Ok r ->
  Response.statusCode r = 200%Z \/
  ((Response.statusCode r = 400%Z \/ Response.statusCode r = 500%Z) /\
   In (Response.body r) errorReasons).
Proof.
  destruct (Split_short_or_long (serviceNodeOf req) _ serviceNodeSeparator_nonempty)
    as [Hshort | (t & u & rest & Hsn)].
  - rewrite (listeners_short_descriptor req _ Hshort). discriminate.
  - rewrite (listeners_descriptor req _ _ _ _ Hsn).
    destruct (negb (t =? "sidecar")).
    + intros [= <-]. left. unfold ioCopy.
      now destruct (Reader.data (Request.Body req)).
    + destruct (Reader.err (Request.Body req)).
      { intros [= <-]. right. split; [now right | now left]. }
      destruct (Unmarshal (Reader.data (Request.Body req))) as [lds|].
      * destruct (forRange _ _) as [ls'|q']; simpl; [|discriminate].
        destruct (Marshal (ldsResponse.mk (map Some ls'))) as [out|]; intros [= <-].
        -- now left.
        -- right. split; [now right | right; right; now left].
      * intros [= <-]. right. split; [now left | right; now left].
Qed.

(** X15: the cluster handler answers 200 or 400 and nothing else: 400
    exactly when the body was read and does not decode, and then with the
    fixed reason as body.  It has no internal-error answer. *)
Theorem clusters_statuses configOptions req :
  (Response.statusCode (clusters configOptions req NewResponse) = 200%Z \/
   Response.statusCode (clusters configOptions req NewResponse) = 400%Z) /\
  (Response.statusCode (clusters configOptions req NewResponse) = 400%Z <->
   Reader.err (Request.Body req) = false /\
   Unmarshal (A := cdsResponse.t) (Reader.data (Request.Body req)) = None) /\
  (Response.statusCode (clusters configOptions req NewResponse) = 400%Z ->
   Response.body (clusters configOptions req NewResponse)
     = list_byte_of_string "could not parse request JSON").
Proof.
  unfold clusters, ReadAll.
  destruct (Reader.err (Request.Body req)).
  { split; [now left|]. split; [split; [discriminate | now intros [? _]]|].
    discriminate. }
  destruct (Unmarshal (Reader.data (Request.Body req))) as [cds|].
  - destruct (Marshal _) as [out|];
      (split; [now left|]; split; [split; [discriminate | now intros [_ ?]]|];
       discriminate).
  - split; [now right|]. split; [split; auto|]. reflexivity.
Qed.

(** X16: the cluster handler leaves a fresh response unwritten exactly
    when the body cannot be read, or decodes to a document whose
    augmented form cannot be encoded: in both cases it returns after
    logging, and the caller sees the initial status 200 with an empty
    body. *)
Theorem clusters_unwritten_iff configOptions req :
  clusters configOptions req NewResponse = NewResponse <->
  Reader.err (Request.Body req) = true \/
  exists cds,
    Unmarshal (Reader.data (Request.Body req)) = Some cds /\
    Marshal (augmented configOptions cds) = None.
Proof.
  unfold clusters, ReadAll.
  destruct (Reader.err (Request.Body req)).
  { split; [now left | reflexivity]. }
  destruct (Unmarshal (Reader.data (Request.Body req))) as [cds|].
  - fold (augmented configOptions cds).
    destruct (Marshal (augmented configOptions cds)) as [out|] eqn:Henc.
    + split; [discriminate|].
      intros [H | (cds' & [= <-] & H)]; [discriminate H|].
      rewrite Henc in H. discriminate H.
    + split; [|reflexivity]. intros _. right. now exists cds.
  - split; [discriminate|].
    intros [H | (cds' & H & _)]; discriminate H.
Qed.

(** X17: [routes] and [endpoints] are the same pass-through: for every
    request the answer is 200 with the bytes the body delivered, also
    when they are no document and when the stream ends in an error, and
    nothing is written for an empty body. *)
Theorem passthrough_echo req :
  routes req NewResponse = endpoints req NewResponse /\
  Response.statusCode (routes req NewResponse) = 200%Z /\
  Response.body (routes req NewResponse) = Reader.data (Request.Body req) /\
  (Response.wroteHeader (routes req NewResponse) = true <->
   Reader.data (Request.Body req) <> []).
Proof.
  unfold routes, endpoints, ioCopy.
  destruct (Reader.data (Request.Body req)) as [|b bytes]; repeat split;
    try discriminate; contradiction.
Qed.

(** X18: whenever the listener handler returns, it answers 500 exactly
    when the proxy is a sidecar and either the body cannot be read or the
    updated document cannot be encoded. *)
Theorem listeners_internal_error_iff req r :
  listeners req NewResponse = Ok r ->
  (Response.statusCode r = 500%Z <->
   nth_error (Split (serviceNodeOf req) serviceNodeSeparator) 0 = Some "sidecar" /\
   (Reader.err (Request.Body req) = true \/
    exists ip lds ls',
      nth_error (Split (serviceNodeOf req) serviceNodeSeparator) 1 = Some ip /\
      Unmarshal (Reader.data (Request.Body req)) = Some lds /\
      forRange (fun l => updateListener l ip) (ldsResponse.Listeners lds) = Ok ls' /\
      Marshal (ldsResponse.mk (map Some ls')) = None)).
Proof.
  destruct (Split_short_or_long (serviceNodeOf req) _ serviceNodeSeparator_nonempty)
    as [Hshort | (t & u & rest & Hsn)].
  - rewrite (listeners_short_descriptor req _ Hshort). discriminate.
  - rewrite (listeners_descriptor req _ _ _ _ Hsn), Hsn. cbn [nth_error].
    destruct (String.eqb_spec t "sidecar") as [->|Hrole]; cbn [negb].
    + destruct (Reader.err (Request.Body req)).
      { intros [= <-]. split; [intros _; split; [reflexivity | now left] | reflexivity]. }
      destruct (Unmarshal (Reader.data (Request.Body req))) as [lds|].
      * destruct (forRange _ _) as [ls'|q'] eqn:Hloop; cbn [bind]; [|discriminate].
        destruct (Marshal (ldsResponse.mk (map Some ls'))) as [out|] eqn:Henc; intros [= <-].
        -- split; [discriminate|].
           intros (_ & [H | (ip & lds' & ls'' & [= <-] & [= <-] & Hl & He)]);
             [discriminate H|].
           rewrite Hloop in Hl. injection Hl as <-. rewrite Henc in He.
           discriminate He.
        -- split; [intros _ | reflexivity]. split; [reflexivity|].
           right. now exists u, lds, ls'.
      * intros [= <-]. split; [discriminate|].
        intros (_ & [H | (ip & lds' & ls'' & _ & H & _)]); discriminate H.
    + intros [= <-]. split.
      * unfold ioCopy. destruct (Reader.data (Request.Body req)); discriminate.
      * intros ([= E] & _). contradiction.
Qed.

(** X19: the cluster handler does not look for the cluster it appends.
    When its answer to a cluster document is sent to it again, and the
    codec decodes what it encoded, the handler appends the calico.dikastes
    cluster a second time: the document it then encodes ends with two
    clusters of that name. *)
Theorem clusters_appends_again configOptions req1 req2 cds out :
  options.SetCluster configOptions = true ->
  Reader.err (Request.Body req1) = false ->
  Unmarshal (Reader.data (Request.Body req1)) = Some cds ->
  Marshal (cdsResponse.mk (cdsResponse.Clusters cds ++ [Some dikastesCluster]))
    = Some out ->
  Unmarshal out
    = Some (cdsResponse.mk (cdsResponse.Clusters cds ++ [Some dikastesCluster])) ->
  Request.Body req2
    = Reader.mk (Response.body (clusters configOptions req1 NewResponse)) false ->
  clusters configOptions req2 NewResponse
    = encoded NewResponse
        (cdsResponse.mk
           (cdsResponse.Clusters cds
              ++ [Some dikastesCluster; Some dikastesCluster])) /\
  map (option_map Cluster.Name)
    (cdsResponse.Clusters cds ++ [Some dikastesCluster; Some dikastesCluster])
    = map (option_map Cluster.Name) (cdsResponse.Clusters cds)
        ++ [Some "calico.dikastes"; Some "calico.dikastes"].
Proof.
  intros Hflag Herr Hdec Henc Hback Hbody. split; [|now rewrite map_app].
  assert (H1 : Response.body (clusters configOptions req1 NewResponse) = out).
  { unfold clusters, ReadAll. rewrite Herr, Hdec, Hflag, Henc. reflexivity. }
  rewrite H1 in Hbody.
  unfold clusters, ReadAll. rewrite Hbody. cbn [Reader.err Reader.data].
  rewrite Hback, Hflag. cbn [cdsResponse.Clusters]. now rewrite <- app_assoc.
Qed.

End Webhook.

(** ** [strings.Split] on the names the webhook meets *)

Example Split_inbound : Split "http_3.4.5.6_43" "_" = ["http"; "3.4.5.6"; "43"].
Proof. reflexivity. Qed.

Example Split_serviceNode :
  Split "sidecar~3.4.5.6~other~items" "~" = ["sidecar"; "3.4.5.6"; "other"; "items"].
Proof. reflexivity. Qed.

Example Split_no_separator : Split "virtual" "_" = ["virtual"].
Proof. reflexivity. Qed.

Example Split_empty : Split "" "_" = [""].
Proof. reflexivity. Qed.

Example Split_trailing : Split "tcp_" "_" = ["tcp"; ""].
Proof. reflexivity. Qed.

Example Split_long_separator : Split "a::b::" "::" = ["a"; "b"; ""].
Proof. reflexivity. Qed.

(** ** The inputs of [webhook_test.go], run on the model *)

Import Fixture.

(** The document of [TestListenersMainline]: the outbound listener comes
    back as sent, the connection manager of the inbound one holds two
    sub-filters, the first named after the authorization filter, the
    second still "cors". *)
Example mainline_loop :
  forRange (fun l => updateListener HTTPConnectionManager l NODE_IP)
    (ldsResponse.Listeners mainline)
  = Ok [outboundHTTP;
        Listener.mk "" "http_3.4.5.6_43"
          [Some (NetworkFilter.mk "" HTTPConnectionManager
             (Some (HTTPFilterConfigPtr
                (Some (HTTPFilterConfig.mk "" ""
                   [authzHttp; HTTPFilter.mk "" CORSFilter None])))))]
          false].
Proof. reflexivity. Qed.

(** [TestListenersBadReq], with a codec that decodes nothing. *)
Example listeners_bad_request :
  listeners (ldsJSON := noJSON _) HTTPConnectionManager
    (sidecarRequest (Reader.mk notJSON false)) NewResponse
  = Ok (Response.mk StatusBadRequest true
          (list_byte_of_string "could not parse request JSON")).
Proof. reflexivity. Qed.

(** [TestListenersNotSidecar], with a body that is no document. *)
Example listeners_not_sidecar :
  listeners (ldsJSON := noJSON _) HTTPConnectionManager
    (ingressRequest (Reader.mk notJSON false)) NewResponse
  = Ok (Response.mk StatusOK true notJSON).
Proof. reflexivity. Qed.

(** [TestUpdateListenersSkipped]. *)
Example skipped_listeners :
  updateListener HTTPConnectionManager (Some outbound443) "1.2.3.4" = Ok outbound443 /\
  updateListener HTTPConnectionManager (Some virtual) "1.2.3.4" = Ok virtual.
Proof. split; reflexivity. Qed.

(** [TestUpdateListenersTCP]. *)
Example tcp_listener :
  updateListener HTTPConnectionManager (Some inboundTCP) "1.2.3.4"
  = Ok (Listener.mk "" "tcp_1.2.3.4_76"
          [Some authzTCP; Some (NetworkFilter.mk "" TCPProxyFilter None)] false).
Proof. reflexivity. Qed.

(** The document of [TestClustersMainline], with the flag set and a codec
    that counts the entries: two entries are encoded. *)
Example one_cluster_with_flag :
  clusters ClusterTypeStatic LbTypeRoundRobin ClusterFeatureHTTP2
    (cdsJSON := cdsCodec oneCluster)
    (options.mk true) (sidecarRequest (Reader.mk [] false)) NewResponse
  = Response.mk StatusOK true [x2a; x2a].
Proof. reflexivity. Qed.

(** The same document with the flag unset, as [configOptions] is when
    nothing sets it: one entry is encoded. *)
Example one_cluster_without_flag :
  clusters ClusterTypeStatic LbTypeRoundRobin ClusterFeatureHTTP2
    (cdsJSON := cdsCodec oneCluster)
    (options.mk false) (sidecarRequest (Reader.mk [] false)) NewResponse
  = Response.mk StatusOK true [x2a].
Proof. reflexivity. Qed.

(** [TestClustersBadReq], with a codec that decodes nothing. *)
Example clusters_bad_request :
  clusters ClusterTypeStatic LbTypeRoundRobin ClusterFeatureHTTP2
    (cdsJSON := noJSON _)
    (options.mk true) (sidecarRequest (Reader.mk notJSON false)) NewResponse
  = Response.mk StatusBadRequest true
      (list_byte_of_string "could not parse request JSON").
Proof. reflexivity. Qed.

(** [TestRoutesPassthru]. *)
Example routes_passthru :
  routes (sidecarRequest (Reader.mk notJSON false)) NewResponse
  = Response.mk StatusOK true notJSON.
Proof. reflexivity. Qed.

(** The cluster handler returns without writing when the body cannot be
    read: the response keeps its initial status, where [listeners] writes
    an internal error. *)
Example clusters_read_failure_unwritten :
  clusters ClusterTypeStatic LbTypeRoundRobin ClusterFeatureHTTP2
    (cdsJSON := noJSON _)
    (options.mk true) (sidecarRequest (Reader.mk [] true)) NewResponse
  = NewResponse.
Proof. reflexivity. Qed.

(** Nil pointers: a decoded [null] among the listeners or in a chain. *)
Example nil_pointers :
  updateListener HTTPConnectionManager None NODE_IP = Panic NilDereference /\
  updateListener HTTPConnectionManager (Some inboundHTTPNilFilter) NODE_IP
    = Panic NilDereference /\
  updateListener HTTPConnectionManager (Some inboundHTTPTypedNil) NODE_IP
    = Panic NilDereference /\
  updateListener HTTPConnectionManager
    (Some (Listener.mk "" "tcp_3.4.5.6_80" [None] false)) NODE_IP
    = Ok (Listener.mk "" "tcp_3.4.5.6_80" [Some authzTCP; None] false) /\
  updateListener HTTPConnectionManager
    (Some (Listener.mk "" "http_0.0.0.0_80" [None] false)) NODE_IP
    = Ok (Listener.mk "" "http_0.0.0.0_80" [None] false).
Proof. repeat split. Qed.

(** A chain whose connection manager comes second: the loop passes the
    proxy filter and the sub-filters of the manager it stops at grow. *)
Example long_chain :
  exists l',
    updateListener HTTPConnectionManager (Some inboundHTTPLongChain) NODE_IP = Ok l' /\
    httpSubFilters HTTPConnectionManager l'
      = [authzHttp; HTTPFilter.mk "" CORSFilter None] /\
    filterNames (Listener.Filters l')
      = [Some TCPProxyFilter; Some HTTPConnectionManager; Some HTTPConnectionManager].
Proof. eexists. repeat split. Qed.

(** ** The theorems at concrete inputs *)

Lemma managerWithCors_first :
  firstManager HTTPConnectionManager (Listener.Filters inboundHTTP)
    [] managerWithCors [].
Proof. repeat split. constructor. Qed.

Lemma updateListener_http_inbound_witness :
  nth_error (nameTokens inboundHTTP) 0 = Some "http" /\
  nth_error (nameTokens inboundHTTP) 1 = Some NODE_IP /\
  firstManager HTTPConnectionManager (Listener.Filters inboundHTTP)
    [] managerWithCors [] /\
  NetworkFilter.Config managerWithCors = Some (HTTPFilterConfigPtr (Some corsOnly)) /\
  exists l' a,
    updateListener HTTPConnectionManager (Some inboundHTTP) NODE_IP = Ok l' /\
    httpSubFilters HTTPConnectionManager l' = [a; HTTPFilter.mk "" CORSFilter None] /\
    isHTTPAuthz a.
Proof.
  do 2 (split; [reflexivity|]). split; [exact managerWithCors_first|].
  split; [reflexivity|].
  destruct (updateListener_http_inbound HTTPConnectionManager inboundHTTP NODE_IP
              eq_refl eq_refl) as [H _].
  destruct (H [] managerWithCors [] corsOnly managerWithCors_first eq_refl)
    as (l' & a & cfg' & Hl' & Hsub & Ha & _).
  exists l', a. split; [exact Hl'|]. split; [exact Hsub | exact Ha].
Defined.

Lemma updateListener_tcp_inbound_witness :
  nth_error (nameTokens inboundTCP) 0 = Some "tcp" /\
  nth_error (nameTokens inboundTCP) 1 = Some "1.2.3.4" /\
  exists l',
    updateListener HTTPConnectionManager (Some inboundTCP) "1.2.3.4" = Ok l' /\
    Listener.Filters l'
      = [Some authzTCP; Some (NetworkFilter.mk "" TCPProxyFilter None)].
Proof.
  do 2 (split; [reflexivity|]).
  destruct (updateListener_tcp_inbound HTTPConnectionManager inboundTCP "1.2.3.4"
              eq_refl eq_refl) as (l' & Hl' & Hf & _).
  exists l'. split; [exact Hl' | exact Hf].
Defined.

Lemma updateListener_outbound_virtual_unchanged_witness :
  (exists a, nth_error (nameTokens outbound443) 1 = Some a /\ a <> "1.2.3.4") /\
  Listener.Name virtual = "virtual" /\
  updateListener HTTPConnectionManager (Some outbound443) "1.2.3.4" = Ok outbound443 /\
  updateListener HTTPConnectionManager (Some virtual) "1.2.3.4" = Ok virtual.
Proof.
  assert (Hout : exists a, nth_error (nameTokens outbound443) 1 = Some a /\ a <> "1.2.3.4")
    by (exists "10.65.8.9"; split; [reflexivity | discriminate]).
  split; [exact Hout|]. split; [reflexivity|]. split.
  - exact (proj2 (updateListener_outbound_virtual_unchanged HTTPConnectionManager
                    outbound443 "1.2.3.4" (or_intror Hout))).
  - exact (proj2 (updateListener_outbound_virtual_unchanged HTTPConnectionManager
                    virtual "1.2.3.4" (or_introl eq_refl))).
Defined.

Lemma updateListener_unknown_protocol_witness :
  nth_error (nameTokens inboundMongo) 0 = Some "mongo" /\
  nth_error (nameTokens inboundMongo) 1 = Some NODE_IP /\
  classifyListener (Some inboundMongo) NODE_IP = Ok (INBOUND, HTTP) /\
  updateListener HTTPConnectionManager (Some inboundMongo) NODE_IP
    = updateHTTPListener HTTPConnectionManager (Some inboundMongo).
Proof.
  do 2 (split; [reflexivity|]).
  assert (Hh : "mongo" <> "http") by discriminate.
  assert (Ht : "mongo" <> "tcp") by discriminate.
  destruct (updateListener_unknown_protocol HTTPConnectionManager inboundMongo
              NODE_IP "mongo" eq_refl Hh Ht eq_refl) as (Hc & Hu & _).
  split; [exact Hc | exact Hu].
Defined.


Lemma inserted_authz_configuration_witness :
  firstManager HTTPConnectionManager (Listener.Filters inboundHTTP)
    [] managerWithCors [] /\
  exists l' a c,
    updateHTTPListener HTTPConnectionManager (Some inboundHTTP) = Ok l' /\
    nth_error (httpSubFilters HTTPConnectionManager l') 0 = Some a /\
    httpAuthzConfig a = Some c /\
    AuthzFilterConfig.StatPrefix c = "".
Proof.
  split; [exact managerWithCors_first|].
  destruct (proj1 (inserted_authz_configuration HTTPConnectionManager)
              inboundHTTP [] managerWithCors [] corsOnly managerWithCors_first eq_refl)
    as (l' & a & c & Hl' & Hf & _ & _ & Ha & Hp & _).
  exists l', a, c.
  split; [exact Hl'|]. split; [exact Hf|]. split; [exact Ha | exact Hp].
Defined.

Lemma listeners_short_name_panics_witness :
  Split (serviceNodeOf (sidecarRequest (Reader.mk notJSON false))) serviceNodeSeparator
    = ["sidecar"; NODE_IP; "other"; "items"] /\
  In (Some unseparated) (ldsResponse.Listeners withUnseparated) /\
  Listener.Name unseparated <> "virtual" /\
  length (nameTokens unseparated) < 2 /\
  classifyListener (Some unseparated) NODE_IP = Panic (IndexOutOfRange 1 1) /\
  exists q,
    listeners (ldsJSON := ldsCodec withUnseparated) HTTPConnectionManager
      (sidecarRequest (Reader.mk notJSON false)) NewResponse = Panic q.
Proof.
  assert (Hin : In (Some unseparated) (ldsResponse.Listeners withUnseparated))
    by (simpl; auto).
  assert (NE : Listener.Name unseparated <> "virtual") by discriminate.
  assert (Hlen : length (nameTokens unseparated) < 2) by (vm_compute; lia).
  split; [reflexivity|]. split; [exact Hin|]. split; [exact NE|].
  split; [exact Hlen|].
  destruct (listeners_short_name_panics HTTPConnectionManager
              (ldsJSON := ldsCodec withUnseparated)
              (sidecarRequest (Reader.mk notJSON false)) NewResponse
              NODE_IP ["other"; "items"] notJSON withUnseparated unseparated
              eq_refl eq_refl eq_refl Hin NE Hlen)
    as (_ & _ & Hc & _ & _ & Hq).
  split; [exact Hc | exact Hq].
Defined.

Lemma clusters_appends_dikastes_witness :
  ReadAll (Reader.mk notJSON false) = (notJSON, false) /\
  Unmarshal (JSON := cdsCodec oneCluster) notJSON = Some oneCluster /\
  Response.body
    (clusters ClusterTypeStatic LbTypeRoundRobin ClusterFeatureHTTP2
       (cdsJSON := cdsCodec oneCluster) (options.mk true)
       (sidecarRequest (Reader.mk notJSON false)) NewResponse)
  = [x2a; x2a].
Proof.
  do 2 (split; [reflexivity|]).
  destruct (clusters_appends_dikastes ClusterTypeStatic LbTypeRoundRobin
              ClusterFeatureHTTP2 (cdsJSON := cdsCodec oneCluster)
              (options.mk true) (sidecarRequest (Reader.mk notJSON false))
              NewResponse notJSON oneCluster eq_refl eq_refl) as [H _].
  destruct (H eq_refl) as (c & cb & Heq & _).
  rewrite Heq. reflexivity.
Defined.
Lemma listeners_not_sidecar_passthrough_witness :
  Split (serviceNodeOf (ingressRequest (Reader.mk notJSON false))) serviceNodeSeparator
    = ["ingress"; NODE_IP; "other"; "items"] /\
  "ingress" <> "sidecar" /\
  exists r,
    listeners (ldsJSON := noJSON _) HTTPConnectionManager
      (ingressRequest (Reader.mk notJSON false)) NewResponse = Ok r /\
    Response.statusCode r = 200%Z /\
    Response.body r = notJSON.
Proof.
  assert (Hrole : "ingress" <> "sidecar") by discriminate.
  split; [reflexivity|]. split; [exact Hrole|].
  destruct (listeners_not_sidecar_passthrough HTTPConnectionManager
              (ldsJSON := noJSON _) (ingressRequest (Reader.mk notJSON false))
              "ingress" NODE_IP ["other"; "items"] eq_refl Hrole)
    as (r & Hr & _ & Hs & Hb).
  exists r. repeat split; assumption.
Defined.

Lemma listeners_sidecar_read_failure_witness :
  Split (serviceNodeOf (sidecarRequest failing)) serviceNodeSeparator
    = ["sidecar"; NODE_IP; "other"; "items"] /\
  Reader.err (Request.Body (sidecarRequest failing)) = true /\
  exists r,
    listeners (ldsJSON := noJSON _) HTTPConnectionManager
      (sidecarRequest failing) NewResponse = Ok r /\
    Response.statusCode r = 500%Z.
Proof.
  do 2 (split; [reflexivity|]).
  destruct (listeners_sidecar_read_failure HTTPConnectionManager
              (ldsJSON := noJSON _) (sidecarRequest failing)
              NODE_IP ["other"; "items"] eq_refl eq_refl)
    as (r & Hr & Hs & _).
  exists r. split; assumption.
Defined.

(** ** Inputs at which the properties as first stated fail *)

(** C1 as stated: an inbound HTTP entry that contains a filter named
    HTTPConnectionManager is returned unchanged when that filter carries
    no configuration: no sub-filter sequence grows and no authorization
    filter appears.  With a configuration of another dynamic type under
    that name the type assertion panics, and so do the loop on a nil
    pointer before the filter and the update on a nil pointer under the
    configuration's type. *)
Lemma updateListener_http_nil_config_counterexample :
  nth_error (nameTokens inboundHTTPNilConfig) 0 = Some "http" /\
  nth_error (nameTokens inboundHTTPNilConfig) 1 = Some NODE_IP /\
  (exists f, In (Some f) (Listener.Filters inboundHTTPNilConfig) /\
             NetworkFilter.Name f = HTTPConnectionManager) /\
  updateListener HTTPConnectionManager (Some inboundHTTPNilConfig) NODE_IP
    = Ok inboundHTTPNilConfig /\
  ~ (exists l',
       updateListener HTTPConnectionManager (Some inboundHTTPNilConfig) NODE_IP = Ok l' /\
       length (httpSubFilters HTTPConnectionManager l')
         = length (httpSubFilters HTTPConnectionManager inboundHTTPNilConfig) + 1 /\
       nth_error (httpSubFilters HTTPConnectionManager l') 0 = Some authzHttp) /\
  updateListener HTTPConnectionManager (Some inboundHTTPOtherConfig) NODE_IP
    = Panic InterfaceConversion /\
  updateListener HTTPConnectionManager (Some inboundHTTPNilFilter) NODE_IP
    = Panic NilDereference /\
  updateListener HTTPConnectionManager (Some inboundHTTPTypedNil) NODE_IP
    = Panic NilDereference.
Proof.
  do 2 (split; [reflexivity|]).
  split; [eexists; split; [left; reflexivity | reflexivity]|].
  split; [reflexivity|]. split; [|repeat split].
  intros (l' & Hl' & Hlen & _).
  change (Ok inboundHTTPNilConfig = Ok l') in Hl'. injection Hl' as <-.
  discriminate Hlen.
Qed.

(** C4 as stated: an inbound entry named after another protocol, with a
    connection manager in its chain, is modified: the HTTP authorization
    filter is inserted. *)
Lemma updateListener_unknown_protocol_counterexample :
  nth_error (nameTokens inboundMongo) 0 = Some "mongo" /\
  "mongo" <> "http" /\ "mongo" <> "tcp" /\
  Listener.Name inboundMongo <> "virtual" /\
  nth_error (nameTokens inboundMongo) 1 = Some NODE_IP /\
  updateListener HTTPConnectionManager (Some inboundMongo) NODE_IP
    <> Ok inboundMongo /\
  exists l',
    updateListener HTTPConnectionManager (Some inboundMongo) NODE_IP = Ok l' /\
    httpSubFilters HTTPConnectionManager l'
      = [authzHttp; HTTPFilter.mk "" CORSFilter None].
Proof.
  split; [reflexivity|]. do 3 (split; [discriminate|]).
  split; [reflexivity|]. split; [discriminate|].
  eexists. split; reflexivity.
Qed.

(** C5 as stated: an unseparated name is not skipped.  The access to the
    second token is out of range, and the handler of a document that holds
    the entry panics: no entry is processed further, no response is
    produced. *)
Lemma listeners_short_name_counterexample :
  Listener.Name unseparated <> "virtual" /\
  length (nameTokens unseparated) < 2 /\
  index (nameTokens unseparated) 1 = Panic (IndexOutOfRange 1 1) /\
  updateListener HTTPConnectionManager (Some unseparated) NODE_IP <> Ok unseparated /\
  ~ (exists r,
       listeners (ldsJSON := ldsCodec withUnseparated) HTTPConnectionManager
         (sidecarRequest (Reader.mk notJSON false)) NewResponse = Ok r).
Proof.
  split; [discriminate|]. split; [vm_compute; lia|]. split; [reflexivity|].
  split; [discriminate|]. intros (r & Hr). discriminate Hr.
Qed.
(** C7 as stated: a self-descriptor that is the role alone has a first
    token other than "sidecar", and the handler panics on it before it
    looks at the role. *)
Lemma listeners_role_only_counterexample :
  index (Split (serviceNodeOf (roleOnlyRequest (Reader.mk notJSON false)))
           serviceNodeSeparator) 0 = Ok "ingress" /\
  "ingress" <> "sidecar" /\
  listeners (ldsJSON := noJSON _) HTTPConnectionManager
    (roleOnlyRequest (Reader.mk notJSON false)) NewResponse
    = Panic (IndexOutOfRange 1 1) /\
  ~ (exists r,
       listeners (ldsJSON := noJSON _) HTTPConnectionManager
         (roleOnlyRequest (Reader.mk notJSON false)) NewResponse = Ok r /\
       Response.statusCode r = 200%Z /\
       Response.body r = notJSON).
Proof.
  split; [reflexivity|]. split; [discriminate|]. split; [reflexivity|].
  intros (r & Hr & _). discriminate Hr.
Qed.

(** C8 as stated: with a body whose read fails, the listener handler of a
    proxy that is not a sidecar answers 200 with the bytes read so far, and
    the cluster handler returns without writing, so its response keeps the
    initial status 200. *)
Lemma read_failure_counterexample :
  Reader.err failing = true /\
  listeners (ldsJSON := noJSON _) HTTPConnectionManager
    (ingressRequest failing) NewResponse
    = Ok (Response.mk 200 true (list_byte_of_string "not")) /\
  clusters ClusterTypeStatic LbTypeRoundRobin ClusterFeatureHTTP2
    (cdsJSON := noJSON _) (options.mk true) (sidecarRequest failing) NewResponse
    = Response.mk 200 false [] /\
  200%Z <> StatusInternalServerError.
Proof. repeat split. discriminate. Qed.

(** C10 as stated: the HTTP variant carries no stat-prefix. *)
Lemma authzHttp_stat_prefix_counterexample :
  ~ (exists a,
       httpAuthzConfig authzHttp = Some a /\
       AuthzFilterConfig.StatPrefix a <> "" /\
       clusterReference a = Some AuthZClusterName).
Proof.
  intros (a & Ha & Hp & _). injection Ha as <-. now apply Hp.
Qed.


(** ** The further theorems at concrete inputs *)

Lemma classifyListener_reads_name_witness :
  classifyListener (Some inboundTCP) "1.2.3.4" = Ok (INBOUND, TCP) /\
  nth_error (nameTokens inboundTCP) 1 = Some "1.2.3.4" /\
  nth_error (nameTokens inboundTCP) 0 = Some "tcp".
Proof.
  destruct (classifyListener_reads_name (Some inboundTCP) "1.2.3.4" INBOUND TCP eq_refl)
    as (l & Hl & _ & Hi & _ & Hp & _).
  injection Hl as <-.
  split; [reflexivity|].
  split; [apply Hi; reflexivity | apply Hp; reflexivity].
Defined.

Lemma classifyListener_conventional_name_witness :
  containsByte "_" "tcp" = false /\
  containsByte "_" "1.2.3.4" = false /\
  Listener.Name inboundTCP = listenerName "tcp" "1.2.3.4" "76" /\
  exists p,
    classifyListener (Some inboundTCP) "1.2.3.4" = Ok (INBOUND, p) /\
    classifyListener (Some inboundTCP) NODE_IP = Ok (OUTBOUND, p).
Proof.
  do 3 (split; [reflexivity|]).
  destruct (classifyListener_conventional_name inboundTCP "tcp" "1.2.3.4" "76"
              eq_refl eq_refl eq_refl) as (p & Hin & Hout & _).
  exists p. split; [exact Hin|]. apply Hout. discriminate.
Defined.

Lemma serviceNode_Split_witness :
  containsByte "~" "sidecar" = false /\
  containsByte "~" NODE_IP = false /\
  Split (serviceNode "sidecar" NODE_IP) serviceNodeSeparator
    = ["sidecar"; NODE_IP; "other"; "items"].
Proof.
  do 2 (split; [reflexivity|]).
  exact (serviceNode_Split "sidecar" NODE_IP eq_refl eq_refl).
Defined.

Lemma updateListener_keeps_entry_witness :
  exists l',
    updateListener HTTPConnectionManager (Some inboundTCP) "1.2.3.4" = Ok l' /\
    Listener.Name l' = "tcp_1.2.3.4_76" /\
    Listener.BindToPort l' = false.
Proof.
  eexists. split; [reflexivity|].
  destruct (updateListener_keeps_entry HTTPConnectionManager (Some inboundTCP)
              "1.2.3.4" _ eq_refl) as (l & Hl & Hn & _ & Hb & _).
  injection Hl as <-. split; [exact Hn | exact Hb].
Defined.

Lemma updateListeners_positionwise_witness :
  exists ls',
    forRange (fun l => updateListener HTTPConnectionManager l NODE_IP)
      (ldsResponse.Listeners mainline) = Ok ls' /\
    length ls' = 2 /\
    nth_error ls' 0 = Some outboundHTTP.
Proof.
  assert (H : exists ls',
             forRange (fun l => updateListener HTTPConnectionManager l NODE_IP)
               (ldsResponse.Listeners mainline) = Ok ls') by (eexists; reflexivity).
  destruct H as [ls' H]. exists ls'. split; [exact H|].
  destruct (updateListeners_positionwise HTTPConnectionManager _ NODE_IP ls' H)
    as (Hlen & _ & _ & _ & Hkeep).
  split; [exact Hlen|]. apply (Hkeep 0 outboundHTTP eq_refl). discriminate.
Defined.

Lemma listeners_short_descriptor_panics_witness :
  (forall v, ~ In ("serviceNode", v) (Request.pathParameters (bareRequest failing))) /\
  listeners (ldsJSON := noJSON _) HTTPConnectionManager (bareRequest failing) NewResponse
    = Panic (IndexOutOfRange 1 1).
Proof.
  assert (H : forall v, ~ In ("serviceNode", v)
                          (Request.pathParameters (bareRequest failing)))
    by (intros v []).
  split; [exact H|].
  exact (listeners_short_descriptor_panics HTTPConnectionManager
           (ldsJSON := noJSON _) (bareRequest failing) NewResponse (or_introl H)).
Defined.

Lemma listeners_panic_source_witness :
  listeners (ldsJSON := ldsCodec withUnseparated) HTTPConnectionManager
    (sidecarRequest (Reader.mk notJSON false)) NewResponse
    = Panic (IndexOutOfRange 1 1) /\
  exists l,
    In l (ldsResponse.Listeners withUnseparated) /\
    updateListener HTTPConnectionManager l NODE_IP = Panic (IndexOutOfRange 1 1).
Proof.
  split; [reflexivity|].
  destruct (listeners_panic_source HTTPConnectionManager
              (ldsJSON := ldsCodec withUnseparated)
              (sidecarRequest (Reader.mk notJSON false)) NewResponse
              "sidecar" NODE_IP ["other"; "items"] (IndexOutOfRange 1 1)
              eq_refl eq_refl)
    as (_ & _ & lds & l & Hdec & Hin & Hl).
  injection Hdec as <-. now exists l.
Defined.

Lemma listeners_sidecar_ok_witness :
  listeners (ldsJSON := ldsCodec mainline)
    HTTPConnectionManager (sidecarRequest (Reader.mk notJSON false)) NewResponse
    = Ok (Response.mk 200 true [x2a; x2a]) /\
  exists ls',
    forRange (fun l => updateListener HTTPConnectionManager l NODE_IP)
      (ldsResponse.Listeners mainline) = Ok ls' /\
    tally ls' = [x2a; x2a].
Proof.
  split; [reflexivity|].
  destruct (listeners_sidecar_ok HTTPConnectionManager
              (ldsJSON := ldsCodec mainline)
              (sidecarRequest (Reader.mk notJSON false)) NODE_IP ["other"; "items"]
              (Response.mk 200 true [x2a; x2a]) eq_refl eq_refl eq_refl)
    as (_ & lds & ls' & out & Hdec & Hloop & Henc & Hr).
  injection Hdec as <-. injection Henc as <-. injection Hr as Hout.
  exists ls'. split; [exact Hloop|].
  rewrite Hout. unfold tally. now rewrite map_map.
Defined.

Lemma listeners_bad_request_iff_witness :
  listeners (ldsJSON := noJSON _) HTTPConnectionManager
    (sidecarRequest (Reader.mk notJSON false)) NewResponse
    = Ok (Response.mk 400 true (list_byte_of_string "could not parse request JSON")) /\
  Unmarshal (JSON := noJSON ldsResponse.t) notJSON = None.
Proof.
  split; [reflexivity|].
  destruct (listeners_bad_request_iff HTTPConnectionManager (ldsJSON := noJSON _)
              (sidecarRequest (Reader.mk notJSON false)) _ eq_refl) as [[H _] _].
  exact (proj2 (proj2 (H eq_refl))).
Defined.

Lemma listeners_statuses_witness :
  listeners (ldsJSON := noJSON _) HTTPConnectionManager
    (sidecarRequest failing) NewResponse
    = Ok (Response.mk 500 true (list_byte_of_string "failed to read request")) /\
  (500%Z = 200%Z \/
   ((500%Z = 400%Z \/ 500%Z = 500%Z) /\
    In (list_byte_of_string "failed to read request") errorReasons)).
Proof.
  split; [reflexivity|].
  exact (listeners_statuses HTTPConnectionManager (ldsJSON := noJSON _)
           (sidecarRequest failing) _ eq_refl).
Defined.

Lemma listeners_internal_error_iff_witness :
  listeners (ldsJSON := noJSON _) HTTPConnectionManager
    (sidecarRequest failing) NewResponse
    = Ok (Response.mk 500 true (list_byte_of_string "failed to read request")) /\
  nth_error (Split (serviceNodeOf (sidecarRequest failing)) serviceNodeSeparator) 0
    = Some "sidecar".
Proof.
  split; [reflexivity|].
  destruct (listeners_internal_error_iff HTTPConnectionManager (ldsJSON := noJSON _)
              (sidecarRequest failing) _ eq_refl) as [H _].
  exact (proj1 (H eq_refl)).
Defined.

Lemma clusters_appends_again_witness :
  Response.body
    (clusters ClusterTypeStatic LbTypeRoundRobin ClusterFeatureHTTP2
       (cdsJSON := unaryCodec
          (dikastesCluster ClusterTypeStatic LbTypeRoundRobin ClusterFeatureHTTP2))
       (options.mk true) (sidecarRequest (Reader.mk [] false)) NewResponse)
    = [x2a] /\
  Response.body
    (clusters ClusterTypeStatic LbTypeRoundRobin ClusterFeatureHTTP2
       (cdsJSON := unaryCodec
          (dikastesCluster ClusterTypeStatic LbTypeRoundRobin ClusterFeatureHTTP2))
       (options.mk true) (sidecarRequest (Reader.mk [x2a] false)) NewResponse)
    = [x2a; x2a].
Proof.
  split; [reflexivity|].
  destruct (clusters_appends_again ClusterTypeStatic LbTypeRoundRobin
              ClusterFeatureHTTP2
              (cdsJSON := unaryCodec
                 (dikastesCluster ClusterTypeStatic LbTypeRoundRobin
                    ClusterFeatureHTTP2))
              (options.mk true)
              (sidecarRequest (Reader.mk [] false))
              (sidecarRequest (Reader.mk [x2a] false))
              (cdsResponse.mk []) [x2a]
              eq_refl eq_refl eq_refl eq_refl eq_refl eq_refl) as [H _].
  rewrite H. reflexivity.
Defined.
